(** * Riksdagen archive search server: model and verified properties

    A shallow embedding of [mcp_riksdagen_server.py]: the query parameter
    record and [to_query_params], the archive client's [search_documents],
    and the tools [riksdagen_search] and [riksdagen_create_url_list].

    Conventions of the embedding.
    - A Python [str] is a Rocq [string]; one [ascii] stands for one code
      point, so the model covers the code points below 256.
    - A Python [dict] is a finite map [gmap string _]; a Python [list] is a
      [list]; a Python [int] is a [Z].
    - A call that may raise returns a [result]: [Ok v] or [Raise e].
    - The search tool is modelled for every [interpreter]: slicing a dict
      raises another exception from Python 3.12 on.
    - The HTTP library is the environment: what [client.get] does is a field
      of the client record, what a response's [json()] gives is a field of
      the response. *)

From stdpp Require Import base option list gmap strings fin_maps.
From Stdlib Require Import ZArith Ascii Lia.

Local Open Scope string_scope.
Local Open Scope Z_scope.

(** ** Exceptions *)

(** The exception classes the program can meet: the builtin ones raised by
    the operations it uses, and httpx's exception tree. *)
Inductive exn_class : Set :=
| Exception
| ValueError | TypeError | AttributeError
| LookupError | KeyError
| ArithmeticError | OverflowError
| JSONDecodeError
| HTTPError
| RequestError | HTTPStatusError
| TransportError | DecodingError | TooManyRedirects
| TimeoutException | NetworkError | ProtocolError | ProxyError
| UnsupportedProtocol
| ConnectTimeout | ReadTimeout | WriteTimeout | PoolTimeout
| ConnectError | ReadError | WriteError | CloseError
| LocalProtocolError | RemoteProtocolError
| InvalidURL | CookieConflict | StreamError.

#[global] Instance exn_class_eq_dec : EqDecision exn_class.
Proof. solve_decision. Defined.

(** The direct base class; [Exception] is the root of the model. *)
Definition base_class (c : exn_class) : option exn_class :=
  match c with
  | Exception => None
  | ValueError | TypeError | AttributeError | LookupError | ArithmeticError
  | HTTPError | InvalidURL | CookieConflict | StreamError => Some Exception
  | KeyError => Some LookupError
  | OverflowError => Some ArithmeticError
  | JSONDecodeError => Some ValueError
  | RequestError | HTTPStatusError => Some HTTPError
  | TransportError | DecodingError | TooManyRedirects => Some RequestError
  | TimeoutException | NetworkError | ProtocolError | ProxyError
  | UnsupportedProtocol => Some TransportError
  | ConnectTimeout | ReadTimeout | WriteTimeout | PoolTimeout =>
      Some TimeoutException
  | ConnectError | ReadError | WriteError | CloseError => Some NetworkError
  | LocalProtocolError | RemoteProtocolError => Some ProtocolError
  end.

(** [issubclass_upto n c d]: [d] is reached from [c] in at most [n] steps up
    the tree. The tree has depth 5. *)
Fixpoint issubclass_upto (n : nat) (c d : exn_class) : bool :=
  bool_decide (c = d) ||
  match n with
  | O => false
  | S n' =>
      match base_class c with
      | Some b => issubclass_upto n' b d
      | None => false
      end
  end.

Definition issubclass (c d : exn_class) : bool := issubclass_upto 5 c d.

(** An exception value. [Raised c m] is [c(m)], raised by the program or by
    the HTTP library; [Interp c] is raised by the interpreter for a builtin
    operation that fails, and its message text is not modelled. *)
Inductive pyexn : Type :=
| Raised (c : exn_class) (message : string)
| Interp (c : exn_class).

Definition class_of (e : pyexn) : exn_class :=
  match e with Raised c _ => c | Interp c => c end.

(** [str(e)], as an f-string renders [{e}]. *)
Definition exn_str (e : pyexn) : string :=
  match e with Raised _ m => m | Interp _ => "" end.

(** ** Results of calls that may raise *)

Inductive result (A : Type) : Type :=
| Ok (a : A)
| Raise (e : pyexn).
Arguments Ok {A} a.
Arguments Raise {A} e.

#[global] Instance result_ret : MRet result := @Ok.
#[global] Instance result_bind : MBind result :=
  λ A B f m, match m with Ok a => f a | Raise e => Raise e end.

(** [try: body except c as e: handler e]. *)
Definition try_except {A} (body : result A) (c : exn_class)
    (handler : pyexn → result A) : result A :=
  match body with
  | Ok a => Ok a
  | Raise e => if issubclass (class_of e) c then handler e else Raise e
  end.

(** [for x in l: s = body s x], stopping at the first exception. *)
Fixpoint for_each {A S} (body : S → A → result S) (s : S) (l : list A)
    : result S :=
  match l with
  | [] => Ok s
  | x :: r => s' ← body s x; for_each body s' r
  end.

(** ** Values decoded from JSON *)

(** A Python [float]: [FFinite m e] is [m * 2^e]. *)
Inductive pyfloat : Set :=
| FFinite (m e : Z)
| FInf (negative : bool)
| FNaN.

#[warnings="-register-all"]
Inductive json : Type :=
| JNull
| JBool (b : bool)
| JInt (z : Z)
| JFloat (f : pyfloat)
| JStr (s : string)
| JList (l : list json)
| JDict (d : gmap string json).

(** ** Builtin operations on strings *)

Definition code (c : ascii) : N := N_of_ascii c.

(** The whitespace [int] skips around a literal: TAB..CR, SPACE, NEL and
    NBSP. *)
Definition is_space (c : ascii) : bool :=
  let n := code c in
  ((9 <=? n) && (n <=? 13) || (n =? 32) || (n =? 133) || (n =? 160))%N.

Definition digit_value (c : ascii) : option Z :=
  let n := code c in
  if ((48 <=? n) && (n <=? 57))%N then Some (Z.of_N (n - 48)) else None.

Fixpoint lstrip (s : string) : string :=
  match s with
  | EmptyString => EmptyString
  | String c r => if is_space c then lstrip r else s
  end.

(** The scan of [int]'s literal: digits with single underscores between
    them. Gives the value, the number of digits and the unread rest; [None]
    for a doubled or a trailing underscore. *)
Fixpoint scan_digits (acc count : Z) (prev_underscore : bool) (s : string)
    : option (Z * Z * string) :=
  match s with
  | EmptyString => if prev_underscore then None else Some (acc, count, s)
  | String c r =>
      match digit_value c with
      | Some d => scan_digits (acc * 10 + d) (count + 1) false r
      | None =>
          if bool_decide (c = "_"%char) then
            if prev_underscore then None else scan_digits acc count true r
          else if prev_underscore then None else Some (acc, count, s)
      end
  end.

(** [sys.int_info.default_max_str_digits]. *)
Definition max_str_digits : Z := 4300.

(** [int(s)] for a string, base 10: surrounding whitespace, an optional
    sign, digits with single inner underscores. [None] is [ValueError]. *)
Definition int_of_str (s : string) : option Z :=
  let s1 := lstrip s in
  let '(negative, s2) :=
    match s1 with
    | String "+"%char r => (false, r)
    | String "-"%char r => (true, r)
    | _ => (false, s1)
    end in
  match s2 with
  | String "_"%char _ => None
  | _ =>
      match scan_digits 0 0 false s2 with
      | Some (v, count, rest) =>
          if (count =? 0)%Z then None
          else if (max_str_digits <? count)%Z then None
          else match lstrip rest with
               | EmptyString => Some (if negative : bool then - v else v)
               | _ => None
               end
      | None => None
      end
  end.

(** [str.lower] on one character: A..Z and the capital letters of
    0xC0..0xDE (0xD7, the multiplication sign, is not a letter). *)
Definition lower_char (c : ascii) : ascii :=
  let n := code c in
  if ((65 <=? n) && (n <=? 90)
      || (192 <=? n) && (n <=? 222) && negb (n =? 215))%N
  then ascii_of_N (n + 32) else c.

Fixpoint lower (s : string) : string :=
  match s with
  | EmptyString => EmptyString
  | String c r => String (lower_char c) (lower r)
  end.

(** [k in s] for two strings. *)
Fixpoint str_contains (k s : string) : bool :=
  String.prefix k s ||
  match s with
  | EmptyString => false
  | String _ r => str_contains k r
  end.

(** The characters of a string, each as a string of length one. *)
Fixpoint chars (s : string) : list string :=
  match s with
  | EmptyString => []
  | String c r => String c EmptyString :: chars r
  end.

(** ** Builtin operations on decoded values *)

(** The end of the slice [l[:stop]] of a sequence of length [n]. *)
Definition slice_stop (n stop : Z) : Z :=
  if stop <? 0 then (if stop + n <? 0 then 0 else stop + n)
  else if n <=? stop then n else stop.

(** [l[:limit]]. *)
Definition slice_to {A} (l : list A) (limit : Z) : list A :=
  take (Z.to_nat (slice_stop (Z.of_nat (length l)) limit)) l.

(** [x == k] for a string [k]. *)
Definition is_str (k : string) (x : json) : bool :=
  match x with JStr s => bool_decide (s = k) | _ => false end.

(** [k in v], for a string [k]. *)
Definition py_contains (k : string) (v : json) : result bool :=
  match v with
  | JDict d => Ok (bool_decide (is_Some (d !! k)))
  | JList l => Ok (existsb (is_str k) l)
  | JStr s => Ok (str_contains k s)
  | JNull | JBool _ | JInt _ | JFloat _ => Raise (Interp TypeError)
  end.

(** [v[k]], for a string [k]. *)
Definition py_getitem (v : json) (k : string) : result json :=
  match v with
  | JDict d =>
      match d !! k with
      | Some x => Ok x
      | None => Raise (Interp KeyError)
      end
  | _ => Raise (Interp TypeError)
  end.

(** [v.get(k, dflt)]: only a dict has the method. *)
Definition py_get (v : json) (k : string) (dflt : json) : result json :=
  match v with
  | JDict d => Ok (default dflt (d !! k))
  | _ => Raise (Interp AttributeError)
  end.

(** The interpreter the program runs on. One builtin operation of the
    program depends on it: up to Python 3.11 a slice cannot be hashed, and
    subscripting a dict with one is a [TypeError]; from Python 3.12 on a
    slice is hashable, and the subscript is a lookup that fails, a
    [KeyError]. *)
Inductive interpreter : Set :=
| UpTo311
| From312.

(** The class of the exception [d[:limit]] raises for a dict [d]. *)
Definition dict_slice_error (py : interpreter) : exn_class :=
  match py with
  | UpTo311 => TypeError
  | From312 => KeyError
  end.

(** The values [for x in v[:limit]] visits. A list and a string can be
    sliced; a dict cannot (its keys are strings, never a slice), and
    [None], a bool and a number cannot be subscripted at all. *)
Definition py_slice_items (py : interpreter) (v : json) (limit : Z)
    : result (list json) :=
  match v with
  | JList l => Ok (slice_to l limit)
  | JStr s =>
      Ok (JStr <$> chars
            (String.string_of_list_ascii
               (slice_to (String.list_ascii_of_string s) limit)))
  | JDict _ => Raise (Interp (dict_slice_error py))
  | JNull | JBool _ | JInt _ | JFloat _ => Raise (Interp TypeError)
  end.

(** [int(f)] for a float: truncation towards zero. *)
Definition int_of_float (f : pyfloat) : result Z :=
  match f with
  | FFinite m e => Ok (if 0 <=? e then m * 2 ^ e else Z.quot m (2 ^ (- e)))
  | FInf _ => Raise (Interp OverflowError)
  | FNaN => Raise (Interp ValueError)
  end.

(** [int(v)]. *)
Definition py_int (v : json) : result Z :=
  match v with
  | JInt z => Ok z
  | JBool b => Ok (if b then 1 else 0)
  | JFloat f => int_of_float f
  | JStr s =>
      match int_of_str s with
      | Some z => Ok z
      | None => Raise (Interp ValueError)
      end
  | JNull | JList _ | JDict _ => Raise (Interp TypeError)
  end.

(** ** The query parameter model *)

Record RiksdagenSearchParams : Type := {
  sok : option string;
  doktyp : option string;
  rm : option string;
  from_date : option string;
  tom : option string;
  ts : option string;
  bet : option string;
  tempbet : option string;
  nr : option string;
  org : option string;
  iid : option string;
  webbtv : option string;
  talare : option string;
  exakt : option string;
  planering : option string;
  sort : string;
  sortorder : string;
  rapport : option string;
  utformat : string;
  a : option string
}.

(** [RiksdagenSearchParams()]: every field at its default. *)
Definition default_params : RiksdagenSearchParams := {|
  sok := None; doktyp := None; rm := None; from_date := None; tom := None;
  ts := None; bet := None; tempbet := None; nr := None; org := None;
  iid := None; webbtv := None; talare := None; exakt := None;
  planering := None; sort := "rel"; sortorder := "desc"; rapport := None;
  utformat := "json"; a := None |}.

(** [self.__dict__.items()]: the fields in declaration order, [None] for
    Python's [None]. *)
Definition items (self : RiksdagenSearchParams)
    : list (string * option string) :=
  [ ("sok", sok self); ("doktyp", doktyp self); ("rm", rm self);
    ("from_date", from_date self); ("tom", tom self); ("ts", ts self);
    ("bet", bet self); ("tempbet", tempbet self); ("nr", nr self);
    ("org", org self); ("iid", iid self); ("webbtv", webbtv self);
    ("talare", talare self); ("exakt", exakt self);
    ("planering", planering self); ("sort", Some (sort self));
    ("sortorder", Some (sortorder self)); ("rapport", rapport self);
    ("utformat", Some (utformat self)); ("a", a self) ].

(** One turn of the loop of [to_query_params]. *)
Definition add_param (params : gmap string string)
    (item : string * option string) : gmap string string :=
  let '(key, value) := item in
  match value with
  | Some v =>
      if bool_decide (key = "from_date") then <["from" := v]> params
      else <[key := v]> params
  | None => params
  end.

Definition to_query_params (self : RiksdagenSearchParams)
    : gmap string string :=
  foldl add_param ∅ (items self).

(** ** The archive client *)

(** What the program reads of an [httpx.Response]: the status code, the
    text [raise_for_status] reports for it, and what [json()] gives. *)
Record Response : Type := {
  status_code : Z;
  status_error : string;
  response_json : result json
}.

(** [response.raise_for_status()]: any status outside 200..299 raises. *)
Definition raise_for_status (response : Response) : result unit :=
  if (200 <=? status_code response) && (status_code response <=? 299)
  then Ok ()
  else Raise (Raised HTTPStatusError (status_error response)).

(** The client holds the HTTP session; [client_get url params] is what
    [await self.client.get(url, params=params)] does. *)
Record RiksdagenClient : Type := {
  client_get : string → gmap string string → result Response
}.

Definition BASE_URL : string := "https://data.riksdagen.se".

Definition search_documents (self : RiksdagenClient)
    (params : RiksdagenSearchParams) : result json :=
  let endpoint := BASE_URL +:+ "/dokumentlista/" in
  try_except
    (response ← client_get self endpoint (to_query_params params);
     _ ← raise_for_status response;
     response_json response)
    HTTPError
    (λ e, Raise (Raised Exception
                   ("Error searching Riksdagen documents: " +:+ exn_str e))).

(** ** The search tool *)

(** The dict built for one raw document (lines 144-156). *)
Definition normalize (doc : json) : result json :=
  id ← py_get doc "id" (JStr "");
  title ← py_get doc "titel" (JStr "");
  type ← py_get doc "typ" (JStr "");
  document_type ← py_get doc "doktyp" (JStr "");
  date ← py_get doc "datum" (JStr "");
  published ← py_get doc "publicerad" (JStr "");
  parliamentary_year ← py_get doc "rm" (JStr "");
  organization ← py_get doc "organ" (JStr "");
  text_url ← py_get doc "dokument_url_text" (JStr "");
  html_url ← py_get doc "dokument_url_html" (JStr "");
  status ← py_get doc "status" (JStr "");
  Ok (JDict (list_to_map
    [ ("id", id); ("title", title); ("type", type);
      ("document_type", document_type); ("date", date);
      ("published", published); ("parliamentary_year", parliamentary_year);
      ("organization", organization); ("text_url", text_url);
      ("html_url", html_url); ("status", status) ])).

(** Lines 139-156: the document list. *)
Definition extract_documents (py : interpreter) (results : json)
    (limit : Z) : result (list json) :=
  has_list ← py_contains "dokumentlista" results;
  has_docs ← (if has_list : bool
              then dl ← py_getitem results "dokumentlista";
                   py_contains "dokument" dl
              else Ok false);
  if has_docs : bool then
    dl ← py_getitem results "dokumentlista";
    raw_docs ← py_getitem dl "dokument";
    visited ← py_slice_items py raw_docs limit;
    for_each (λ documents doc, nd ← normalize doc; Ok (documents ++ [nd])%list)
             [] visited
  else Ok [].

(** Line 160: the hit count. *)
Definition total_hits (results : json) : result Z :=
  dl ← py_get results "dokumentlista" (JDict ∅);
  traffar ← py_get dl "@traffar" (JStr "0");
  py_int traffar.

(** The response dict (lines 159-162). *)
Definition search_response (hits : Z) (documents : list json) : json :=
  JDict (list_to_map
    [ ("total_hits", JInt hits); ("documents", JList documents) ]).

(** The parameters built at lines 125-134. *)
Definition search_params (sok doktyp rm from_date tom : option string)
    (sort sortorder : string) : RiksdagenSearchParams := {|
  sok := sok; doktyp := doktyp; rm := rm; from_date := from_date;
  tom := tom; ts := None; bet := None; tempbet := None; nr := None;
  org := None; iid := None; webbtv := None; talare := None; exakt := None;
  planering := None; sort := sort; sortorder := sortorder; rapport := None;
  utformat := "json"; a := None |}.

Definition riksdagen_search (py : interpreter) (client : RiksdagenClient)
    (sok doktyp rm from_date tom : option string) (sort sortorder : string)
    (limit : Z) : result json :=
  let params := search_params sok doktyp rm from_date tom sort sortorder in
  results ← search_documents client params;
  documents ← extract_documents py results limit;
  hits ← total_hits results;
  Ok (search_response hits documents).

(** ** The URL list tool *)

Definition riksdagen_create_url_list (document_ids : list string)
    (format : string) : result json :=
  let format_extension := lower format in
  if negb (bool_decide (format_extension ∈ ["json"; "html"; "text"])) then
    Raise (Raised ValueError
             "Invalid format. Supported formats are: json, html, text")
  else
    let urls :=
      foldl (λ urls doc_id,
               let url :=
                 if bool_decide (format_extension = "json") then
                   "https://data.riksdagen.se/dokument/" +:+ doc_id +:+ "."
                     +:+ format_extension
                 else
                   "https://data.riksdagen.se/dokument/" +:+ doc_id +:+ "."
                     +:+ format_extension in
               (urls ++ [JDict (list_to_map
                           [("id", JStr doc_id); ("url", JStr url)])])%list)
            [] document_ids in
    Ok (JDict (list_to_map
      [ ("urls", JList urls); ("format", JStr format_extension);
        ("count", JInt (Z.of_nat (length urls))) ])).

(** ** Vocabulary of the statements *)

(** The declared fields of [RiksdagenSearchParams], in declaration order. *)
Inductive field : Set :=
| F_sok | F_doktyp | F_rm | F_from_date | F_tom | F_ts | F_bet | F_tempbet
| F_nr | F_org | F_iid | F_webbtv | F_talare | F_exakt | F_planering
| F_sort | F_sortorder | F_rapport | F_utformat | F_a.

#[global] Instance field_eq_dec : EqDecision field.
Proof. solve_decision. Defined.

Definition fields : list field :=
  [ F_sok; F_doktyp; F_rm; F_from_date; F_tom; F_ts; F_bet; F_tempbet;
    F_nr; F_org; F_iid; F_webbtv; F_talare; F_exakt; F_planering;
    F_sort; F_sortorder; F_rapport; F_utformat; F_a ].

(** The attribute name of a field. *)
Definition field_name (f : field) : string :=
  match f with
  | F_sok => "sok" | F_doktyp => "doktyp" | F_rm => "rm"
  | F_from_date => "from_date" | F_tom => "tom" | F_ts => "ts"
  | F_bet => "bet" | F_tempbet => "tempbet" | F_nr => "nr" | F_org => "org"
  | F_iid => "iid" | F_webbtv => "webbtv" | F_talare => "talare"
  | F_exakt => "exakt" | F_planering => "planering" | F_sort => "sort"
  | F_sortorder => "sortorder" | F_rapport => "rapport"
  | F_utformat => "utformat" | F_a => "a"
  end.

(** The value a field holds; [None] is Python's [None]. *)
Definition field_value (self : RiksdagenSearchParams) (f : field)
    : option string :=
  match f with
  | F_sok => sok self | F_doktyp => doktyp self | F_rm => rm self
  | F_from_date => from_date self | F_tom => tom self | F_ts => ts self
  | F_bet => bet self | F_tempbet => tempbet self | F_nr => nr self
  | F_org => org self | F_iid => iid self | F_webbtv => webbtv self
  | F_talare => talare self | F_exakt => exakt self
  | F_planering => planering self | F_sort => Some (sort self)
  | F_sortorder => Some (sortorder self) | F_rapport => rapport self
  | F_utformat => Some (utformat self) | F_a => a self
  end.

(** The key the upstream API knows a parameter by. *)
Definition canonical (key : string) : string :=
  if bool_decide (key = "from_date") then "from" else key.

Definition canonical_name (f : field) : string := canonical (field_name f).

(** A field "holding a value" read as the specification words it: neither
    [None] nor the empty string. *)
Definition non_empty (value : option string) : bool :=
  match value with
  | Some v => negb (bool_decide (v = ""))
  | None => false
  end.

(** Parameters whose only caller-supplied value is an empty search term. *)
Definition empty_sok_params : RiksdagenSearchParams :=
  search_params (Some "") None None None None "rel" "desc".

(** Parameters with a date range. *)
Definition dated_params : RiksdagenSearchParams :=
  search_params (Some "skatt") None None (Some "2021-01-01")
                (Some "2021-12-31") "datum" "asc".

(** What [normalize] gives for a raw document that is a dict: each field is
    the raw attribute, or the empty string where the raw document has none. *)
Definition normalized_document (doc : gmap string json) : json :=
  JDict (list_to_map
    [ ("id", default (JStr "") (doc !! "id"));
      ("title", default (JStr "") (doc !! "titel"));
      ("type", default (JStr "") (doc !! "typ"));
      ("document_type", default (JStr "") (doc !! "doktyp"));
      ("date", default (JStr "") (doc !! "datum"));
      ("published", default (JStr "") (doc !! "publicerad"));
      ("parliamentary_year", default (JStr "") (doc !! "rm"));
      ("organization", default (JStr "") (doc !! "organ"));
      ("text_url", default (JStr "") (doc !! "dokument_url_text"));
      ("html_url", default (JStr "") (doc !! "dokument_url_html"));
      ("status", default (JStr "") (doc !! "status")) ]).

(** The attributes of a raw document that [normalize] reads. *)
Definition raw_fields : list string :=
  [ "id"; "titel"; "typ"; "doktyp"; "datum"; "publicerad"; "rm"; "organ";
    "dokument_url_text"; "dokument_url_html"; "status" ].

(** The fields of a normalized document. *)
Definition normalized_fields : list string :=
  [ "id"; "title"; "type"; "document_type"; "date"; "published";
    "parliamentary_year"; "organization"; "text_url"; "html_url"; "status" ].

(** The normalized document whose fields are all the empty string. *)
Definition empty_document : json :=
  JDict (list_to_map ((λ k, (k, JStr "")) <$> normalized_fields)).

(** The documents the specification announces for a limit: the first
    [min(limit, n)] of the [n] entries, normalized. *)
Definition documents_as_specified (limit : Z)
    (entries : list (gmap string json)) : list json :=
  normalized_document <$>
    take (Z.to_nat (Z.min limit (Z.of_nat (length entries)))) entries.

(** The exception [search_documents] raises for a failure with the given
    cause (line 70). *)
Definition search_error (cause : string) : pyexn :=
  Raised Exception ("Error searching Riksdagen documents: " +:+ cause).

(** The entry of the URL list for one document ID. *)
Definition url_entry (format_extension doc_id : string) : json :=
  JDict (list_to_map
    [ ("id", JStr doc_id);
      ("url", JStr (BASE_URL +:+ "/dokument/" +:+ doc_id +:+ "."
                      +:+ format_extension)) ]).

(** *** Sample environments and payloads *)

(** A client whose every request has the same outcome. *)
Definition fixed_client (outcome : result Response) : RiksdagenClient :=
  {| client_get := λ _ _, outcome |}.

(** A response with status 200 and the given decoded body. *)
Definition ok_response (body : json) : result Response :=
  Ok {| status_code := 200; status_error := ""; response_json := Ok body |}.

Definition entry (id : string) : gmap string json := {[ "id" := JStr id ]}.

(** The "dokumentlista" object with a hit count and a document list. *)
Definition document_list (traffar : json) (entries : list (gmap string json))
    : gmap string json :=
  {[ "@traffar" := traffar; "dokument" := JList (JDict <$> entries) ]}.

Definition payload_dict (traffar : json) (entries : list (gmap string json))
    : gmap string json :=
  {[ "dokumentlista" := JDict (document_list traffar entries) ]}.

Definition payload (traffar : json) (entries : list (gmap string json))
    : json :=
  JDict (payload_dict traffar entries).

Definition two_entries : list (gmap string json) :=
  [ entry "H8C1"; entry "H8C2" ].

Definition fifteen_entries : list (gmap string json) :=
  entry <$> [ "d01"; "d02"; "d03"; "d04"; "d05"; "d06"; "d07"; "d08";
              "d09"; "d10"; "d11"; "d12"; "d13"; "d14"; "d15" ].

(** The "dokumentlista" object with a hit count and no document list. *)
Definition hit_count_only (traffar : json) : gmap string json :=
  {[ "@traffar" := traffar ]}.

Definition bare_payload_dict (traffar : json) : gmap string json :=
  {[ "dokumentlista" := JDict (hit_count_only traffar) ]}.

(** A payload whose hit count is not a number, and no document list. *)
Definition unparsable_hits : json := JDict (bare_payload_dict (JStr "abc")).

(** A payload with a hit count and no document list. *)
Definition hits_without_documents : json :=
  JDict (bare_payload_dict (JStr "7")).

(** A client that cannot connect. *)
Definition refused_client : RiksdagenClient :=
  fixed_client (Raise (Raised ConnectError "All connection attempts failed")).

(** A client whose request times out. *)
Definition timeout_client : RiksdagenClient :=
  fixed_client (Raise (Raised ReadTimeout "The read operation timed out")).

(** A client that is answered with status 503. *)
Definition unavailable_client : RiksdagenClient :=
  fixed_client (Ok {| status_code := 503;
                      status_error := "Server error '503 Service Unavailable'";
                      response_json := Ok (JDict ∅) |}).

(** A search with the default arguments and the given limit, on an
    interpreter up to Python 3.11. *)
Definition search_with (client : RiksdagenClient) (limit : Z) : result json :=
  riksdagen_search UpTo311 client None None None None None "rel" "desc" limit.

(** ** The calls made on the HTTP session *)

(** What the program does to the session: a GET request, or closing it. *)
Inductive event : Type :=
| Request (url : string) (params : gmap string string)
| Close.

(** A computation with the session: its outcome and the calls it made, in
    order. *)
Record traced (A : Type) : Type := Traced {
  traced_outcome : result A;
  traced_events : list event
}.
Arguments Traced {A} _ _.
Arguments traced_outcome {A} _.
Arguments traced_events {A} _.

#[global] Instance traced_ret : MRet traced := λ A a, Traced (Ok a) [].
#[global] Instance traced_bind : MBind traced :=
  λ A B f m,
    match traced_outcome m with
    | Ok a => Traced (traced_outcome (f a))
                     (traced_events m ++ traced_events (f a))%list
    | Raise e => Traced (Raise e) (traced_events m)
    end.

(** A step that makes no call on the session. *)
Definition silent {A} (r : result A) : traced A := Traced r [].

(** [try: body except c as e: handler e], with the calls of both. *)
Definition traced_try_except {A} (body : traced A) (c : exn_class)
    (handler : pyexn → traced A) : traced A :=
  match traced_outcome body with
  | Ok _ => body
  | Raise e =>
      if issubclass (class_of e) c
      then Traced (traced_outcome (handler e))
                  (traced_events body ++ traced_events (handler e))%list
      else body
  end.

(** [try: body finally: final]: [final] runs whatever [body] did; an
    exception of [final] replaces the outcome of [body]. *)
Definition try_finally {A} (body : traced A) (final : traced unit)
    : traced A :=
  Traced
    match traced_outcome final with
    | Ok _ => traced_outcome body
    | Raise e => Raise e
    end
    (traced_events body ++ traced_events final)%list.

(** [await self.client.get(url, params=params)]. *)
Definition get_traced (self : RiksdagenClient) (url : string)
    (params : gmap string string) : traced Response :=
  Traced (client_get self url params) [Request url params].

(** [search_documents] (lines 61-70), with the calls it makes. *)
Definition search_documents_traced (self : RiksdagenClient)
    (params : RiksdagenSearchParams) : traced json :=
  let endpoint := BASE_URL +:+ "/dokumentlista/" in
  traced_try_except
    (response ← get_traced self endpoint (to_query_params params);
     _ ← silent (raise_for_status response);
     silent (response_json response))
    HTTPError
    (λ e, silent (Raise (Raised Exception
                   ("Error searching Riksdagen documents: " +:+ exn_str e)))).

(** [riksdagen_search] (lines 99-164), with the calls it makes. *)
Definition riksdagen_search_traced (py : interpreter)
    (client : RiksdagenClient)
    (sok doktyp rm from_date tom : option string) (sort sortorder : string)
    (limit : Z) : traced json :=
  let params := search_params sok doktyp rm from_date tom sort sortorder in
  results ← search_documents_traced client params;
  documents ← silent (extract_documents py results limit);
  hits ← silent (total_hits results);
  silent (Ok (search_response hits documents)).

(** [RiksdagenClient.close] (lines 72-74); [aclose] is what
    [await self.client.aclose()] gives. *)
Definition close (aclose : result unit) : traced unit :=
  Traced aclose [Close].

(** [riksdagen_lifespan] (lines 84-92) around what the server does while
    it is active. *)
Definition riksdagen_lifespan {A} (aclose : result unit) (serving : traced A)
    : traced A :=
  try_finally serving (close aclose).

(** *** More vocabulary and samples *)

(** The fields of a normalized document, each with the raw attribute it is
    read from (lines 145-155). *)
Definition field_sources : list (string * string) :=
  [ ("id", "id"); ("title", "titel"); ("type", "typ");
    ("document_type", "doktyp"); ("date", "datum");
    ("published", "publicerad"); ("parliamentary_year", "rm");
    ("organization", "organ"); ("text_url", "dokument_url_text");
    ("html_url", "dokument_url_html"); ("status", "status") ].

(** The value [riksdagen_create_url_list] returns for a list of entries. *)
Definition url_list_result (urls : list json) (format_extension : string)
    : json :=
  JDict (list_to_map
    [ ("urls", JList urls); ("format", JStr format_extension);
      ("count", JInt (Z.of_nat (length urls))) ]).

(** The exceptions the interpreter raises for the builtin operations of the
    search tool. *)
Definition is_builtin_error (py : interpreter) (e : pyexn) : Prop :=
  ∃ c, e = Interp c ∧
       c ∈ [TypeError; AttributeError; ValueError; OverflowError;
            dict_slice_error py].

(** A "dokumentlista" object whose document list holds arbitrary values. *)
Definition raw_document_list (traffar : json) (items : list json)
    : gmap string json :=
  {[ "@traffar" := traffar; "dokument" := JList items ]}.

Definition raw_payload_dict (traffar : json) (items : list json)
    : gmap string json :=
  {[ "dokumentlista" := JDict (raw_document_list traffar items) ]}.

(** A client answered with status 200 and a body that is not JSON. *)
Definition undecodable_client : RiksdagenClient :=
  fixed_client (Ok {| status_code := 200; status_error := "";
                      response_json :=
                        Raise (Raised JSONDecodeError
                                 "Expecting value: line 1 column 1 (char 0)")
                   |}).

(** A raw document with a null title and an attribute the tool ignores. *)
Definition odd_document : gmap string json :=
  {[ "id" := JStr "H8C1"; "titel" := JNull; "extra" := JInt 1 ]}.

(** ** The query parameter model: proofs *)

Section QueryParams.

Implicit Types (params acc : gmap string string) (key k : string).

Lemma add_param_lookup params key value k :
  add_param params (key, value) !! k =
    if bool_decide (k = canonical key)
    then match value with Some v => Some v | None => params !! k end
    else params !! k.
Proof.
  unfold add_param, canonical.
  destruct value as [v|]; [|by case_bool_decide].
  do 2 case_bool_decide; simplify_eq;
    by rewrite ?lookup_insert_eq, ?lookup_insert_ne by done.
Qed.

Lemma foldl_add_param_other its acc k :
  k ∉ (canonical ∘ fst) <$> its →
  foldl add_param acc its !! k = acc !! k.
Proof.
  revert acc. induction its as [|[key value] its IH]; intros acc Hk; [done|].
  rewrite fmap_cons, not_elem_of_cons in Hk. destruct Hk as [Hne Hk].
  cbn [foldl]. rewrite IH, add_param_lookup by done.
  by rewrite bool_decide_eq_false_2.
Qed.

Lemma foldl_add_param_item its acc key value :
  NoDup ((canonical ∘ fst) <$> its) →
  (key, value) ∈ its →
  foldl add_param acc its !! canonical key =
    match value with Some v => Some v | None => acc !! canonical key end.
Proof.
  revert acc. induction its as [|[key0 value0] its IH]; intros acc Hnd Hin.
  { by apply elem_of_nil in Hin. }
  rewrite fmap_cons, NoDup_cons in Hnd. destruct Hnd as [Hfresh Hnd].
  change ((canonical ∘ fst) (key0, value0)) with (canonical key0) in Hfresh.
  apply elem_of_cons in Hin as [Heq|Hin]; cbn [foldl].
  - simplify_eq. rewrite foldl_add_param_other, add_param_lookup by done.
    by rewrite bool_decide_eq_true_2.
  - rewrite IH by done. destruct value as [v|]; [done|].
    rewrite add_param_lookup, bool_decide_eq_false_2; [done|].
    intros Heq. apply Hfresh. rewrite <- Heq.
    by apply (list_elem_of_fmap_2 (canonical ∘ fst) _ (key, None)).
Qed.

Lemma items_fields self :
  items self = (λ f, (field_name f, field_value self f)) <$> fields.
Proof. reflexivity. Qed.

Lemma items_keys self :
  (canonical ∘ fst) <$> items self = canonical_name <$> fields.
Proof. reflexivity. Qed.

Lemma canonical_names_NoDup : NoDup (canonical_name <$> fields).
Proof. apply (bool_decide_unpack _). vm_compute. exact I. Qed.

Lemma to_query_params_field self f :
  to_query_params self !! canonical_name f = field_value self f.
Proof.
  unfold to_query_params, canonical_name.
  rewrite (foldl_add_param_item _ _ _ (field_value self f)).
  - destruct (field_value self f); [done|apply lookup_empty].
  - rewrite items_keys. apply canonical_names_NoDup.
  - rewrite items_fields.
    apply (list_elem_of_fmap_2 (λ f, (field_name f, field_value self f))).
    destruct f; unfold fields; set_solver.
Qed.

Lemma to_query_params_key self k :
  is_Some (to_query_params self !! k) → ∃ f, k = canonical_name f.
Proof.
  intros Hk. destruct (decide (k ∈ canonical_name <$> fields)) as [Hin|Hout].
  - apply list_elem_of_fmap in Hin as (f & -> & _). by exists f.
  - unfold to_query_params in Hk.
    rewrite foldl_add_param_other, lookup_empty in Hk.
    + by destruct Hk.
    + by rewrite items_keys.
Qed.

End QueryParams.

(** C2, as amended. A field is serialized exactly when its value is not
    [None]: the mapping binds the canonical name of every field to that
    field's value (so a field holding a string, the empty string included,
    is present with that string, and a field holding [None] is absent), and
    the mapping has no key that is not the canonical name of a field holding
    a value. *)
Theorem to_query_params_serializes_non_none (self : RiksdagenSearchParams) :
  (∀ f, to_query_params self !! canonical_name f = field_value self f) ∧
  (∀ k, is_Some (to_query_params self !! k) →
        ∃ f, k = canonical_name f ∧ is_Some (field_value self f)).
Proof.
  split; [apply to_query_params_field|].
  intros k Hk. destruct (to_query_params_key self k Hk) as [f ->].
  exists f. split; [done|]. by rewrite <- to_query_params_field.
Qed.

Lemma to_query_params_serializes_non_none_witness :
  to_query_params dated_params !! "tom" = Some "2021-12-31" ∧
  to_query_params dated_params !! "doktyp" = None ∧
  ∃ f, "sok" = canonical_name f ∧ is_Some (field_value dated_params f).
Proof.
  destruct (to_query_params_serializes_non_none dated_params) as [Hf Hk].
  split; [exact (Hf F_tom)|]. split; [exact (Hf F_doktyp)|].
  apply Hk. exists "skatt". exact (Hf F_sok).
Defined.

(** C2 as stated fails: a field set to the empty string holds no value in
    the claim's reading, and it is serialized all the same. *)
Lemma empty_string_param_is_serialized :
  non_empty (field_value empty_sok_params F_sok) = false ∧
  to_query_params empty_sok_params !! canonical_name F_sok = Some "".
Proof. split; [reflexivity|]. vm_compute. reflexivity. Qed.

(** C3. The key "from_date" never occurs in the mapping; the key "from" is
    bound to the from-date field's value when it is set and absent when it
    is [None]; every other field keeps its own name as its key. *)
Theorem from_date_is_sent_as_from (self : RiksdagenSearchParams) :
  to_query_params self !! "from_date" = None ∧
  to_query_params self !! "from" = from_date self ∧
  (∀ f, f ≠ F_from_date →
        canonical_name f = field_name f ∧
        to_query_params self !! field_name f = field_value self f).
Proof.
  split; [|split].
  - destruct (to_query_params self !! "from_date") as [v|] eqn:Hv; [|done].
    destruct (to_query_params_key self "from_date") as [f Hf]; [by eexists|].
    by destruct f.
  - apply (to_query_params_field self F_from_date).
  - intros f Hf.
    assert (canonical_name f = field_name f) as Hname by by destruct f.
    split; [done|]. rewrite <- Hname. apply to_query_params_field.
Qed.

Lemma from_date_is_sent_as_from_witness :
  to_query_params dated_params !! "from_date" = None ∧
  to_query_params dated_params !! "from" = Some "2021-01-01" ∧
  to_query_params dated_params !! "sortorder" = Some "asc".
Proof.
  destruct (from_date_is_sent_as_from dated_params) as (Hold & Hnew & Hrest).
  split; [exact Hold|]. split; [exact Hnew|].
  by destruct (Hrest F_sortorder).
Defined.

(** C4. With every field at its default the mapping is exactly
    sort = "rel", sortorder = "desc", utformat = "json": these three keys and
    no other. *)
Theorem default_query_params :
  to_query_params default_params =
    {[ "sort" := "rel"; "sortorder" := "desc"; "utformat" := "json" ]} ∧
  dom (to_query_params default_params) =
    ({[ "sort"; "sortorder"; "utformat" ]} : gset string).
Proof.
  assert (to_query_params default_params =
    {[ "sort" := "rel"; "sortorder" := "desc"; "utformat" := "json" ]})
    as Hmap by (vm_compute; reflexivity).
  split; [done|]. rewrite Hmap. set_solver.
Qed.

(** ** The search tool: proofs *)

Section Search.

Implicit Types (d dl raw : gmap string json) (limit hits : Z).

Lemma normalize_dict raw :
  normalize (JDict raw) = Ok (normalized_document raw).
Proof. reflexivity. Qed.

Lemma normalize_loop entries (acc : list json) :
  for_each (λ documents doc, nd ← normalize doc; Ok (documents ++ [nd])%list)
           acc (JDict <$> entries) =
  Ok (acc ++ (normalized_document <$> entries))%list.
Proof.
  revert acc. induction entries as [|raw entries IH]; intros acc.
  - by rewrite app_nil_r.
  - rewrite fmap_cons. cbn [for_each]. rewrite normalize_dict.
    cbn [mbind result_bind]. rewrite IH.
    by rewrite <- app_assoc.
Qed.

Lemma slice_to_fmap {A B} (f : A → B) (l : list A) limit :
  slice_to (f <$> l) limit = f <$> slice_to l limit.
Proof. unfold slice_to. by rewrite length_fmap, fmap_take. Qed.

Lemma slice_to_nonneg {A} (l : list A) limit :
  0 ≤ limit →
  slice_to l limit = take (Z.to_nat (Z.min limit (Z.of_nat (length l)))) l.
Proof.
  intros Hlimit. unfold slice_to, slice_stop. f_equal.
  destruct (Z.ltb_spec limit 0); [lia|].
  destruct (Z.leb_spec (Z.of_nat (length l)) limit); lia.
Qed.

Lemma slice_to_zero {A} (l : list A) : slice_to l 0 = [].
Proof.
  unfold slice_to, slice_stop. cbn [Z.ltb Z.compare].
  destruct (Z.leb_spec (Z.of_nat (length l)) 0) as [Hlen|_]; [|done].
  by replace (Z.to_nat (Z.of_nat (length l))) with 0%nat by lia.
Qed.

Lemma slice_to_negative {A} (l : list A) limit :
  limit < 0 →
  slice_to l limit =
    take (Z.to_nat (Z.of_nat (length l) - Z.abs limit)) l.
Proof.
  intros Hlimit. unfold slice_to, slice_stop. f_equal.
  destruct (Z.ltb_spec limit 0); [|lia].
  destruct (Z.ltb_spec (limit + Z.of_nat (length l)) 0); lia.
Qed.

Lemma extract_documents_list {py : interpreter} d dl entries limit :
  d !! "dokumentlista" = Some (JDict dl) →
  dl !! "dokument" = Some (JList (JDict <$> entries)) →
  extract_documents py (JDict d) limit =
    Ok (normalized_document <$> slice_to entries limit).
Proof.
  intros Hd Hdl. unfold extract_documents, py_contains, py_getitem.
  rewrite Hd, bool_decide_eq_true_2 by by eexists.
  cbn [mbind result_bind]. rewrite Hdl, bool_decide_eq_true_2 by by eexists.
  cbn [mbind result_bind py_slice_items].
  rewrite slice_to_fmap. apply (normalize_loop _ []).
Qed.

Lemma extract_documents_no_list {py : interpreter} d limit :
  d !! "dokumentlista" = None → extract_documents py (JDict d) limit = Ok [].
Proof.
  intros Hd. unfold extract_documents, py_contains.
  rewrite Hd, bool_decide_eq_false_2; [done|]. by intros [? ?].
Qed.

Lemma extract_documents_no_documents {py : interpreter} d dl limit :
  d !! "dokumentlista" = Some (JDict dl) →
  dl !! "dokument" = None →
  extract_documents py (JDict d) limit = Ok [].
Proof.
  intros Hd Hdl. unfold extract_documents, py_contains, py_getitem.
  rewrite Hd, bool_decide_eq_true_2 by by eexists.
  cbn [mbind result_bind]. rewrite Hdl, bool_decide_eq_false_2; [done|].
  by intros [? ?].
Qed.

Lemma total_hits_no_list d :
  d !! "dokumentlista" = None → total_hits (JDict d) = Ok 0.
Proof. intros Hd. unfold total_hits, py_get. by rewrite Hd. Qed.

Lemma total_hits_no_field d dl :
  d !! "dokumentlista" = Some (JDict dl) →
  dl !! "@traffar" = None →
  total_hits (JDict d) = Ok 0.
Proof.
  intros Hd Hdl. unfold total_hits, py_get. rewrite Hd.
  cbn [mbind result_bind from_option id]. by rewrite Hdl.
Qed.

Lemma total_hits_field d dl traffar :
  d !! "dokumentlista" = Some (JDict dl) →
  dl !! "@traffar" = Some traffar →
  total_hits (JDict d) = py_int traffar.
Proof.
  intros Hd Hdl. unfold total_hits, py_get. rewrite Hd.
  cbn [mbind result_bind from_option id]. by rewrite Hdl.
Qed.

Lemma riksdagen_search_results {py : interpreter}
    client sok doktyp rm from_date tom
    sort sortorder limit results :
  search_documents client
    (search_params sok doktyp rm from_date tom sort sortorder) = Ok results →
  riksdagen_search py client sok doktyp rm from_date tom sort sortorder limit =
    (documents ← extract_documents py results limit;
     hits ← total_hits results;
     Ok (search_response hits documents)).
Proof. intros Hres. unfold riksdagen_search. by rewrite Hres. Qed.

End Search.

(** C1, as amended. When the payload is an object and the document list
    is built without an exception (lines 139-156 run before the hit count
    is read), [total_hits] is 0 if the payload has no "dokumentlista"
    object or that object has no "@traffar" field; if the field holds a
    string, [total_hits] is the integer [int] reads from it, and a string
    [int] cannot read makes the call raise [ValueError] instead of giving
    0. *)
Theorem total_hits_coercion {py : interpreter} (client : RiksdagenClient)
    (sok doktyp rm from_date tom : option string) (sort sortorder : string)
    (limit : Z) (d : gmap string json) (documents : list json) :
  search_documents client
    (search_params sok doktyp rm from_date tom sort sortorder)
    = Ok (JDict d) →
  extract_documents py (JDict d) limit = Ok documents →
  (d !! "dokumentlista" = None →
   riksdagen_search py client sok doktyp rm from_date tom sort sortorder limit
   = Ok (search_response 0 documents)) ∧
  (∀ dl, d !! "dokumentlista" = Some (JDict dl) →
         dl !! "@traffar" = None →
   riksdagen_search py client sok doktyp rm from_date tom sort sortorder limit
   = Ok (search_response 0 documents)) ∧
  (∀ dl s, d !! "dokumentlista" = Some (JDict dl) →
           dl !! "@traffar" = Some (JStr s) →
   riksdagen_search py client sok doktyp rm from_date tom sort sortorder limit
   = match int_of_str s with
     | Some hits => Ok (search_response hits documents)
     | None => Raise (Interp ValueError)
     end).
Proof.
  intros Hres Hdocs.
  rewrite (riksdagen_search_results _ _ _ _ _ _ _ _ _ _ Hres), Hdocs.
  cbn [mbind result_bind]. repeat split.
  - intros Hd. by rewrite total_hits_no_list.
  - intros dl Hd Hdl. by rewrite (total_hits_no_field d dl).
  - intros dl s Hd Hdl. rewrite (total_hits_field d dl (JStr s)) by done.
    cbn [py_int]. by destruct (int_of_str s).
Qed.

Lemma total_hits_coercion_witness :
  search_with (fixed_client (ok_response (JDict ∅))) 10
    = Ok (search_response 0 []) ∧
  search_with (fixed_client (ok_response (payload (JStr " 42 ") two_entries)))
              10
    = Ok (search_response 42 (normalized_document <$> two_entries)) ∧
  search_with (fixed_client (ok_response unparsable_hits)) 10
    = Raise (Interp ValueError).
Proof.
  split; [|split].
  - apply (total_hits_coercion (py := UpTo311) (fixed_client (ok_response (JDict ∅)))
             None None None None None "rel" "desc" 10 ∅ []);
      reflexivity.
  - refine (proj2 (proj2 (total_hits_coercion (py := UpTo311)
             (fixed_client (ok_response (payload (JStr " 42 ") two_entries)))
             None None None None None "rel" "desc" 10
             (payload_dict (JStr " 42 ") two_entries)
             (normalized_document <$> two_entries) _ _))
             (document_list (JStr " 42 ") two_entries) " 42 " _ _);
      vm_compute; reflexivity.
  - refine (proj2 (proj2 (total_hits_coercion (py := UpTo311)
             (fixed_client (ok_response unparsable_hits))
             None None None None None "rel" "desc" 10
             (bare_payload_dict (JStr "abc")) [] _ _))
             (hit_count_only (JStr "abc")) "abc" _ _);
      vm_compute; reflexivity.
Defined.

(** C1 as stated fails: with the hit count "abc" the search raises
    [ValueError]; it does not answer with [total_hits] 0. *)
Lemma unparsable_hit_count_raises :
  search_with (fixed_client (ok_response unparsable_hits)) 10
    = Raise (Interp ValueError) ∧
  ∀ documents,
    search_with (fixed_client (ok_response unparsable_hits)) 10
      ≠ Ok (search_response 0 documents).
Proof.
  assert (search_with (fixed_client (ok_response unparsable_hits)) 10
          = Raise (Interp ValueError)) as Hraise by (vm_compute; reflexivity).
  split; [done|]. intros documents. by rewrite Hraise.
Qed.

(** The search on a payload whose document list holds dict entries: the
    entries of the slice [raw_docs[:limit]], normalized in their order. *)
Lemma riksdagen_search_slice {py : interpreter} (client : RiksdagenClient)
    (sok doktyp rm from_date tom : option string) (sort sortorder : string)
    (limit : Z) (d dl : gmap string json) (entries : list (gmap string json))
    (hits : Z) :
  search_documents client
    (search_params sok doktyp rm from_date tom sort sortorder)
    = Ok (JDict d) →
  total_hits (JDict d) = Ok hits →
  d !! "dokumentlista" = Some (JDict dl) →
  dl !! "dokument" = Some (JList (JDict <$> entries)) →
  riksdagen_search py client sok doktyp rm from_date tom sort sortorder limit
  = Ok (search_response hits (normalized_document <$> slice_to entries limit)).
Proof.
  intros Hres Hhits Hd Hdl.
  rewrite (riksdagen_search_results _ _ _ _ _ _ _ _ _ _ Hres).
  rewrite (extract_documents_list d dl entries) by done.
  cbn [mbind result_bind]. by rewrite Hhits.
Qed.

(** C5, as amended. When the search succeeds and the hit count is read:
    for a limit that is not negative and a document list of [n] dict
    entries, the documents are the first [min(limit, n)] entries, normalized
    in upstream order; without a "dokumentlista" object, or without a
    "dokument" list in it, the documents are empty. [total_hits] is the hit
    count read from the payload, whatever the limit. *)
Theorem search_returns_first_documents {py : interpreter}
    (client : RiksdagenClient)
    (sok doktyp rm from_date tom : option string) (sort sortorder : string)
    (limit : Z) (d : gmap string json) (hits : Z) :
  search_documents client
    (search_params sok doktyp rm from_date tom sort sortorder)
    = Ok (JDict d) →
  total_hits (JDict d) = Ok hits →
  (∀ dl entries,
     0 ≤ limit →
     d !! "dokumentlista" = Some (JDict dl) →
     dl !! "dokument" = Some (JList (JDict <$> entries)) →
     riksdagen_search py client sok doktyp rm from_date tom sort sortorder limit
     = Ok (search_response hits (documents_as_specified limit entries))) ∧
  (d !! "dokumentlista" = None →
   riksdagen_search py client sok doktyp rm from_date tom sort sortorder limit
   = Ok (search_response hits [])) ∧
  (∀ dl, d !! "dokumentlista" = Some (JDict dl) →
         dl !! "dokument" = None →
   riksdagen_search py client sok doktyp rm from_date tom sort sortorder limit
   = Ok (search_response hits [])).
Proof.
  intros Hres Hhits. repeat split.
  - intros dl entries Hlimit Hd Hdl. unfold documents_as_specified.
    rewrite <- slice_to_nonneg by done.
    by apply (riksdagen_search_slice _ _ _ _ _ _ _ _ _ d dl).
  - intros Hd. rewrite (riksdagen_search_results _ _ _ _ _ _ _ _ _ _ Hres).
    rewrite extract_documents_no_list by done.
    cbn [mbind result_bind]. by rewrite Hhits.
  - intros dl Hd Hdl.
    rewrite (riksdagen_search_results _ _ _ _ _ _ _ _ _ _ Hres).
    rewrite (extract_documents_no_documents d dl) by done.
    cbn [mbind result_bind]. by rewrite Hhits.
Qed.

Lemma search_returns_first_documents_witness :
  search_with (fixed_client (ok_response (payload (JStr "42") fifteen_entries)))
              10
    = Ok (search_response 42
            (normalized_document <$> take 10 fifteen_entries)) ∧
  search_with (fixed_client (ok_response hits_without_documents)) 10
    = Ok (search_response 7 []).
Proof.
  split.
  - refine (proj1 (search_returns_first_documents (py := UpTo311)
             (fixed_client (ok_response (payload (JStr "42") fifteen_entries)))
             None None None None None "rel" "desc" 10
             (payload_dict (JStr "42") fifteen_entries) 42 _ _)
             (document_list (JStr "42") fifteen_entries)
             fifteen_entries _ _ _);
      try lia; vm_compute; reflexivity.
  - refine (proj2 (proj2 (search_returns_first_documents (py := UpTo311)
             (fixed_client (ok_response hits_without_documents))
             None None None None None "rel" "desc" 10
             (bare_payload_dict (JStr "7")) 7 _ _))
             (hit_count_only (JStr "7")) _ _);
      vm_compute; reflexivity.
Defined.

(** C5 as stated fails in two ways. With the limit -1 and two entries the
    search returns one document, which is not the first [min(-1, 2)]; and
    with a hit count that is not a number the search raises, whatever the
    document list holds. *)
Lemma search_is_not_min_of_limit :
  search_with (fixed_client (ok_response (payload (JStr "42") two_entries)))
              (-1)
    = Ok (search_response 42 [normalized_document (entry "H8C1")]) ∧
  documents_as_specified (-1) two_entries = [] ∧
  search_with (fixed_client (ok_response (payload (JStr "42") two_entries)))
              (-1)
    ≠ Ok (search_response 42 (documents_as_specified (-1) two_entries)) ∧
  search_with (fixed_client (ok_response (payload (JStr "abc") two_entries)))
              10
    = Raise (Interp ValueError).
Proof.
  assert (search_with
            (fixed_client (ok_response (payload (JStr "42") two_entries)))
            (-1)
          = Ok (search_response 42 [normalized_document (entry "H8C1")]))
    as Hone.
  { unfold search_with.
    rewrite (riksdagen_search_slice _ _ _ _ _ _ _ _ (-1)
               (payload_dict (JStr "42") two_entries)
               (document_list (JStr "42") two_entries) two_entries 42);
      [reflexivity|vm_compute; reflexivity..]. }
  split; [done|]. split; [reflexivity|]. split.
  - rewrite Hone. intros Heq.
    apply (f_equal (λ r, match r with
                         | Ok (JDict m) => m !! "documents"
                         | _ => None
                         end)) in Heq.
    vm_compute in Heq. discriminate Heq.
  - vm_compute. reflexivity.
Qed.

(** C6. Normalizing a raw document that is a dict never fails; when the
    document has none of the eleven attributes read, the normalized document
    is [empty_document], whose eleven fields are all the empty string. *)
Theorem normalize_tolerates_missing_fields (raw : gmap string json) :
  (∃ document, normalize (JDict raw) = Ok document) ∧
  ((∀ k, k ∈ raw_fields → raw !! k = None) →
   normalize (JDict raw) = Ok empty_document) ∧
  (∃ m : gmap string json,
     empty_document = JDict m ∧ size m = 11%nat ∧
     ∀ k v, m !! k = Some v → v = JStr "").
Proof.
  split; [by eexists|]. split.
  - intros Hmissing. rewrite normalize_dict. unfold normalized_document.
    rewrite !Hmissing by (unfold raw_fields; set_solver). reflexivity.
  - eexists. split; [reflexivity|]. split; [vm_compute; reflexivity|].
    intros k v Hkv. apply elem_of_list_to_map_2 in Hkv.
    apply list_elem_of_fmap in Hkv as (name & Heq & _). by simplify_eq.
Qed.

Lemma normalize_tolerates_missing_fields_witness :
  normalize (JDict {[ "unrelated" := JInt 1 ]}) = Ok empty_document.
Proof.
  apply (normalize_tolerates_missing_fields {[ "unrelated" := JInt 1 ]}).
  intros k Hk. unfold raw_fields in Hk.
  repeat (apply elem_of_cons in Hk as [->|Hk]; [vm_compute; reflexivity|]).
  by apply elem_of_nil in Hk.
Defined.

(** ** The archive client: proofs *)

Lemma transport_error_is_http_error (c : exn_class) :
  issubclass c TransportError = true → issubclass c HTTPError = true.
Proof. by destruct c. Qed.

Lemma search_documents_status_error (self : RiksdagenClient)
    (params : RiksdagenSearchParams) (response : Response) :
  client_get self (BASE_URL +:+ "/dokumentlista/") (to_query_params params)
    = Ok response →
  ¬ (200 ≤ status_code response ≤ 299) →
  search_documents self params = Raise (search_error (status_error response)).
Proof.
  intros Hget Hstatus. unfold search_documents. rewrite Hget.
  cbn [mbind result_bind]. unfold raise_for_status.
  destruct (Z.leb_spec 200 (status_code response));
    destruct (Z.leb_spec (status_code response) 299);
    try lia; reflexivity.
Qed.

Lemma search_documents_transport_error (self : RiksdagenClient)
    (params : RiksdagenSearchParams) (e : pyexn) :
  client_get self (BASE_URL +:+ "/dokumentlista/") (to_query_params params)
    = Raise e →
  issubclass (class_of e) TransportError = true →
  search_documents self params = Raise (search_error (exn_str e)).
Proof.
  intros Hget Hclass. unfold search_documents. rewrite Hget.
  cbn [mbind result_bind try_except].
  by rewrite transport_error_is_http_error.
Qed.

(** C9. A transport failure of the request (an exception of a class under
    [TransportError]: connection, DNS and timeout failures) and a response
    whose status is outside 200..299 both make [search_documents] raise the
    one kind of error, an [Exception] whose message carries the cause, and
    [riksdagen_search] raises that same exception: no response, no
    documents. *)
Theorem search_failures_surface_as_one_error {py : interpreter}
    (client : RiksdagenClient)
    (sok doktyp rm from_date tom : option string) (sort sortorder : string)
    (limit : Z) :
  (∀ e,
     client_get client (BASE_URL +:+ "/dokumentlista/")
       (to_query_params
          (search_params sok doktyp rm from_date tom sort sortorder))
       = Raise e →
     issubclass (class_of e) TransportError = true →
     search_documents client
       (search_params sok doktyp rm from_date tom sort sortorder)
       = Raise (search_error (exn_str e)) ∧
     riksdagen_search py client sok doktyp rm from_date tom sort sortorder limit
       = Raise (search_error (exn_str e))) ∧
  (∀ response,
     client_get client (BASE_URL +:+ "/dokumentlista/")
       (to_query_params
          (search_params sok doktyp rm from_date tom sort sortorder))
       = Ok response →
     ¬ (200 ≤ status_code response ≤ 299) →
     search_documents client
       (search_params sok doktyp rm from_date tom sort sortorder)
       = Raise (search_error (status_error response)) ∧
     riksdagen_search py client sok doktyp rm from_date tom sort sortorder limit
       = Raise (search_error (status_error response))).
Proof.
  split.
  - intros e Hget Hclass.
    pose proof (search_documents_transport_error _ _ _ Hget Hclass) as Hraise.
    split; [done|]. unfold riksdagen_search. by rewrite Hraise.
  - intros response Hget Hstatus.
    pose proof (search_documents_status_error _ _ _ Hget Hstatus) as Hraise.
    split; [done|]. unfold riksdagen_search. by rewrite Hraise.
Qed.

Lemma search_failures_surface_as_one_error_witness :
  search_with refused_client 10
    = Raise (search_error "All connection attempts failed") ∧
  search_with timeout_client 10
    = Raise (search_error "The read operation timed out") ∧
  search_with unavailable_client 10
    = Raise (search_error "Server error '503 Service Unavailable'").
Proof.
  split; [|split].
  - apply (proj1 (search_failures_surface_as_one_error (py := UpTo311) refused_client
                    None None None None None "rel" "desc" 10)
             (Raised ConnectError "All connection attempts failed"));
      reflexivity.
  - apply (proj1 (search_failures_surface_as_one_error (py := UpTo311) timeout_client
                    None None None None None "rel" "desc" 10)
             (Raised ReadTimeout "The read operation timed out"));
      reflexivity.
  - apply (proj2 (search_failures_surface_as_one_error (py := UpTo311) unavailable_client
                    None None None None None "rel" "desc" 10)
             {| status_code := 503;
                status_error := "Server error '503 Service Unavailable'";
                response_json := Ok (JDict ∅) |});
      [reflexivity|simpl; lia].
Defined.

(** ** The URL list tool: proofs *)

Lemma url_list_loop (format_extension : string) (document_ids : list string)
    (acc : list json) :
  foldl (λ urls doc_id,
           let url :=
             if bool_decide (format_extension = "json") then
               "https://data.riksdagen.se/dokument/" +:+ doc_id +:+ "."
                 +:+ format_extension
             else
               "https://data.riksdagen.se/dokument/" +:+ doc_id +:+ "."
                 +:+ format_extension in
           (urls ++ [JDict (list_to_map
                       [("id", JStr doc_id); ("url", JStr url)])])%list)
        acc document_ids
  = (acc ++ (url_entry format_extension <$> document_ids))%list.
Proof.
  revert acc. induction document_ids as [|doc_id ids IH]; intros acc.
  - by rewrite app_nil_r.
  - cbn [foldl]. rewrite IH, fmap_cons, <- app_assoc.
    by destruct (bool_decide (format_extension = "json")).
Qed.

(** C7. A format whose lowercase form is none of "json", "html", "text" is
    rejected with the [ValueError] of line 215, whatever the document IDs:
    no URL entry and no result is produced. *)
Theorem create_url_list_rejects_format (document_ids : list string)
    (format : string) :
  lower format ∉ ["json"; "html"; "text"] →
  riksdagen_create_url_list document_ids format
  = Raise (Raised ValueError
             "Invalid format. Supported formats are: json, html, text").
Proof.
  intros Hformat. unfold riksdagen_create_url_list.
  by rewrite bool_decide_eq_false_2.
Qed.

Lemma create_url_list_rejects_format_witness :
  riksdagen_create_url_list ["X"] "pdf"
  = Raise (Raised ValueError
             "Invalid format. Supported formats are: json, html, text").
Proof.
  apply (create_url_list_rejects_format ["X"] "pdf").
  apply (bool_decide_unpack _). vm_compute. exact I.
Defined.

(** C8. For a format whose lowercase form is "json", "html" or "text", the
    result has one entry per document ID, in input order and with
    duplicates kept; each URL is [BASE_URL/dokument/<id>.<extension>] with
    the lowercased format as extension, for all three formats; "format" is
    the lowercased format and "count" the number of IDs. *)
Theorem create_url_list_entries (document_ids : list string)
    (format : string) :
  lower format ∈ ["json"; "html"; "text"] →
  riksdagen_create_url_list document_ids format
  = Ok (JDict (list_to_map
      [ ("urls", JList (url_entry (lower format) <$> document_ids));
        ("format", JStr (lower format));
        ("count", JInt (Z.of_nat (length document_ids))) ])).
Proof.
  intros Hformat. unfold riksdagen_create_url_list.
  rewrite bool_decide_eq_true_2 by done. cbn [negb].
  rewrite (url_list_loop _ _ []). cbn [app].
  by rewrite length_fmap.
Qed.

Lemma create_url_list_entries_witness :
  riksdagen_create_url_list ["H8C1"; "H8C2"; "H8C1"] "HTML"
  = Ok (JDict (list_to_map
      [ ("urls", JList
           [ JDict (list_to_map
               [ ("id", JStr "H8C1");
                 ("url", JStr "https://data.riksdagen.se/dokument/H8C1.html") ]);
             JDict (list_to_map
               [ ("id", JStr "H8C2");
                 ("url", JStr "https://data.riksdagen.se/dokument/H8C2.html") ]);
             JDict (list_to_map
               [ ("id", JStr "H8C1");
                 ("url", JStr "https://data.riksdagen.se/dokument/H8C1.html") ])
           ]);
        ("format", JStr "html");
        ("count", JInt 3) ])).
Proof.
  apply (create_url_list_entries ["H8C1"; "H8C2"; "H8C1"] "HTML").
  apply (bool_decide_unpack _). vm_compute. exact I.
Defined.

(** ** The builtin operations on sample inputs *)

Example int_of_str_plain : int_of_str "42" = Some 42.
Proof. reflexivity. Qed.

Example int_of_str_padded_signed : int_of_str "  -4_2 " = Some (-42).
Proof. reflexivity. Qed.

Example int_of_str_leading_zeros : int_of_str "007" = Some 7.
Proof. reflexivity. Qed.

Example int_of_str_rejects :
  int_of_str <$> [ "abc"; ""; " "; "_1"; "1_"; "1__0"; "+ 1"; "4 2"; "4.2";
                   "1e3"; "-"; "0x10" ]
  = replicate 12 None.
Proof. reflexivity. Qed.

Example lower_mixed_case : lower "HtMl" = "html".
Proof. reflexivity. Qed.

Example slice_to_samples :
  slice_to [1; 2; 3; 4; 5] (-1) = [1; 2; 3; 4] ∧
  slice_to [1; 2; 3] (-5) = [] ∧
  slice_to [1; 2; 3] 0 = [] ∧
  slice_to [1; 2; 3] 7 = [1; 2; 3] ∧
  slice_to [1; 2; 3] 2 = [1; 2].
Proof. repeat split. Qed.

Example timeouts_are_http_errors :
  issubclass ConnectTimeout HTTPError = true ∧
  issubclass JSONDecodeError HTTPError = false.
Proof. split; reflexivity. Qed.

Example py_int_of_float : py_int (JFloat (FFinite (-15) (-2))) = Ok (-3).
Proof. reflexivity. Qed.

(** ** Further properties of the query parameter model *)

Lemma field_in_fields (f : field) : f ∈ fields.
Proof. destruct f; unfold fields; set_solver. Qed.

Lemma canonical_name_inj (f g : field) :
  canonical_name f = canonical_name g → f = g.
Proof. destruct f, g; intros Heq; first [reflexivity | discriminate Heq]. Qed.

Lemma fields_NoDup : NoDup fields.
Proof. apply (bool_decide_unpack _). vm_compute. exact I. Qed.

(** X1. [to_query_params] loses nothing: two parameter records with the
    same query mapping are the same record. *)
Theorem to_query_params_injective (p q : RiksdagenSearchParams) :
  to_query_params p = to_query_params q → p = q.
Proof.
  intros Heq.
  assert (∀ f, field_value p f = field_value q f) as Hf.
  { intros f. by rewrite <- !to_query_params_field, Heq. }
  destruct p, q.
  generalize (Hf F_sok) (Hf F_doktyp) (Hf F_rm) (Hf F_from_date) (Hf F_tom)
    (Hf F_ts) (Hf F_bet) (Hf F_tempbet) (Hf F_nr) (Hf F_org) (Hf F_iid)
    (Hf F_webbtv) (Hf F_talare) (Hf F_exakt) (Hf F_planering) (Hf F_sort)
    (Hf F_sortorder) (Hf F_rapport) (Hf F_utformat) (Hf F_a).
  cbn. intros. by simplify_eq.
Qed.

Lemma to_query_params_injective_witness :
  to_query_params dated_params ≠ to_query_params default_params.
Proof.
  intros Heq. by pose proof (to_query_params_injective _ _ Heq).
Defined.

(** X2. The keys of the query mapping are the canonical names of the fields
    that hold a value, one key per such field; there are at least three of
    them (sort, sortorder and utformat always hold a value) and at most
    twenty. *)
Theorem to_query_params_keys (self : RiksdagenSearchParams) :
  dom (to_query_params self) =
    list_to_set
      (canonical_name <$>
         filter (λ f, is_Some (field_value self f)) fields) ∧
  size (to_query_params self) =
    length (filter (λ f, is_Some (field_value self f)) fields) ∧
  (3 ≤ size (to_query_params self) ≤ 20)%nat.
Proof.
  assert (dom (to_query_params self) =@{gset string}
          list_to_set
            (canonical_name <$>
               filter (λ f, is_Some (field_value self f)) fields)) as Hdom.
  { apply set_eq. intros k.
    rewrite elem_of_dom, elem_of_list_to_set, list_elem_of_fmap. split.
    - intros Hk. destruct (to_query_params_key self k Hk) as [f ->].
      exists f. split; [done|]. apply list_elem_of_filter.
      split; [|apply field_in_fields]. by rewrite <- to_query_params_field.
    - intros (f & -> & Hf). apply list_elem_of_filter in Hf as [Hf _].
      by rewrite to_query_params_field. }
  assert (size (to_query_params self) =
          length (filter (λ f, is_Some (field_value self f)) fields))
    as Hsize.
  { rewrite <- size_dom, Hdom, size_list_to_set, length_fmap; [done|].
    apply NoDup_fmap_2_strong; [|apply NoDup_filter, fields_NoDup].
    intros f g _ _. apply canonical_name_inj. }
  split; [done|]. split; [done|]. split.
  - rewrite <- size_dom.
    assert (({[ "sort"; "sortorder"; "utformat" ]} : gset string)
            ⊆ dom (to_query_params self)) as Hsub.
    { intros k Hk. apply elem_of_dom.
      rewrite !elem_of_union, !elem_of_singleton in Hk.
      destruct Hk as [[->| ->]| ->].
      - exists (sort self). apply (to_query_params_field self F_sort).
      - exists (sortorder self).
        apply (to_query_params_field self F_sortorder).
      - exists (utformat self).
        apply (to_query_params_field self F_utformat). }
    apply subseteq_size in Hsub.
    assert (size ({[ "sort"; "sortorder"; "utformat" ]} : gset string)
            = 3%nat) as H3 by (vm_compute; reflexivity).
    lia.
  - rewrite Hsize. etrans; [apply length_filter|]. reflexivity.
Qed.

(** X3. The query [riksdagen_search] sends: utformat is always "json",
    sort and sortorder are the arguments, the five optional arguments
    appear under sok, doktyp, rm, from and tom exactly when they are given,
    and no other key is ever sent. *)
Theorem search_query_parameters
    (sok doktyp rm from_date tom : option string) (sort sortorder : string) :
  let query :=
    to_query_params
      (search_params sok doktyp rm from_date tom sort sortorder) in
  query !! "utformat" = Some "json" ∧
  query !! "sort" = Some sort ∧
  query !! "sortorder" = Some sortorder ∧
  query !! "sok" = sok ∧ query !! "doktyp" = doktyp ∧ query !! "rm" = rm ∧
  query !! "from" = from_date ∧ query !! "tom" = tom ∧
  dom query ⊆
    ({[ "sok"; "doktyp"; "rm"; "from"; "tom"; "sort"; "sortorder";
        "utformat" ]} : gset string).
Proof.
  intros query. unfold query.
  set (params := search_params sok doktyp rm from_date tom sort sortorder).
  repeat split.
  - apply (to_query_params_field params F_utformat).
  - apply (to_query_params_field params F_sort).
  - apply (to_query_params_field params F_sortorder).
  - apply (to_query_params_field params F_sok).
  - apply (to_query_params_field params F_doktyp).
  - apply (to_query_params_field params F_rm).
  - apply (to_query_params_field params F_from_date).
  - apply (to_query_params_field params F_tom).
  - intros k Hk. apply elem_of_dom in Hk.
    destruct (to_query_params_key params k Hk) as [f ->].
    rewrite to_query_params_field in Hk.
    destruct f; first [set_solver | by destruct Hk].
Qed.

(** ** Further properties of the archive client and of failures *)

Lemma builtin_error_not_http {py : interpreter} (e : pyexn) :
  is_builtin_error py e → issubclass (class_of e) HTTPError = false.
Proof.
  intros (c & -> & Hc). cbn [class_of].
  repeat (apply elem_of_cons in Hc as [->|Hc]; [by destruct py|]).
  by apply elem_of_nil in Hc.
Qed.

Lemma interp_builtin {py : interpreter} (c : exn_class) :
  c ∈ [TypeError; AttributeError; ValueError; OverflowError;
       dict_slice_error py] →
  is_builtin_error py (Interp c).
Proof. intros Hc. by exists c. Qed.

Lemma search_documents_no_http_error (self : RiksdagenClient)
    (params : RiksdagenSearchParams) (e : pyexn) :
  search_documents self params = Raise e →
  issubclass (class_of e) HTTPError = false.
Proof.
  unfold search_documents, try_except.
  destruct (_ ≫= _) as [v|e0]; [done|].
  destruct (issubclass (class_of e0) HTTPError) eqn:Hclass.
  - intros [= <-]. reflexivity.
  - by intros [= <-].
Qed.

Lemma normalize_error (doc : json) (e : pyexn) :
  normalize doc = Raise e → e = Interp AttributeError.
Proof. destruct doc; by intros [= <-]. Qed.

Lemma normalize_ok (doc document : json) :
  normalize doc = Ok document →
  ∃ raw, doc = JDict raw ∧ document = normalized_document raw.
Proof.
  destruct doc as [| | | | | |raw]; try done.
  rewrite normalize_dict. intros [= <-]. by exists raw.
Qed.

Lemma normalize_loop_error (visited : list json) (acc : list json)
    (e : pyexn) :
  for_each (λ documents doc, nd ← normalize doc; Ok (documents ++ [nd])%list)
           acc visited = Raise e →
  e = Interp AttributeError.
Proof.
  revert acc. induction visited as [|doc visited IH]; intros acc; [done|].
  cbn [for_each]. destruct (normalize doc) as [nd|e0] eqn:Hdoc.
  - cbn [mbind result_bind]. apply IH.
  - cbn [mbind result_bind]. intros [= <-]. by apply (normalize_error doc).
Qed.

Lemma normalize_loop_ok (visited : list json) (acc documents : list json) :
  for_each (λ documents doc, nd ← normalize doc; Ok (documents ++ [nd])%list)
           acc visited = Ok documents →
  ∃ raws, visited = JDict <$> raws ∧
          documents = (acc ++ (normalized_document <$> raws))%list.
Proof.
  revert acc. induction visited as [|doc visited IH]; intros acc.
  - intros [= <-]. exists []. by rewrite app_nil_r.
  - cbn [for_each]. destruct (normalize doc) as [nd|e0] eqn:Hdoc; [|done].
    cbn [mbind result_bind]. intros Hrest.
    destruct (normalize_ok _ _ Hdoc) as (raw & -> & ->).
    destruct (IH _ Hrest) as (raws & -> & ->).
    exists (raw :: raws). by rewrite <- app_assoc.
Qed.

(** The document list of an object payload with a "dokument" value. *)
Lemma extract_documents_value {py : interpreter}
    (d dl : gmap string json) (raw_docs : json)
    (limit : Z) :
  d !! "dokumentlista" = Some (JDict dl) →
  dl !! "dokument" = Some raw_docs →
  extract_documents py (JDict d) limit =
    (visited ← py_slice_items py raw_docs limit;
     for_each (λ documents doc, nd ← normalize doc; Ok (documents ++ [nd])%list)
              [] visited).
Proof.
  intros Hd Hdl. unfold extract_documents, py_contains, py_getitem.
  rewrite Hd, bool_decide_eq_true_2 by by eexists.
  cbn [mbind result_bind]. rewrite Hdl, bool_decide_eq_true_2 by by eexists.
  reflexivity.
Qed.

Lemma py_slice_items_error {py : interpreter}
    (v : json) (limit : Z) (e : pyexn) :
  py_slice_items py v limit = Raise e →
  e = Interp TypeError ∨ e = Interp (dict_slice_error py).
Proof. destruct v; intros [= <-]; by eauto. Qed.

Lemma extract_documents_error {py : interpreter}
    (results : json) (limit : Z) (e : pyexn) :
  extract_documents py results limit = Raise e →
  e = Interp TypeError ∨ e = Interp AttributeError ∨
  e = Interp (dict_slice_error py).
Proof.
  unfold extract_documents.
  destruct results as [| | | |s|l|d]; cbn [py_contains mbind result_bind];
    try (intros [= <-]; by left).
  - destruct (str_contains "dokumentlista" s); cbn; [|done].
    intros [= <-]. by left.
  - destruct (existsb (is_str "dokumentlista") l); cbn; [|done].
    intros [= <-]. by left.
  - destruct (d !! "dokumentlista") as [v|] eqn:Hd.
    + rewrite bool_decide_eq_true_2 by by eexists.
      cbn [py_getitem mbind result_bind]. rewrite Hd.
      cbn [mbind result_bind].
      destruct (py_contains "dokument" v) as [[|]|e0] eqn:Hv;
        cbn [mbind result_bind]; [| done |].
      * destruct (py_getitem v "dokument") as [raw_docs|e1] eqn:Hraw;
          cbn [mbind result_bind].
        -- destruct (py_slice_items py raw_docs limit) as [visited|e2] eqn:Hs;
             cbn [mbind result_bind].
           ++ intros Hloop. right. left.
              by apply normalize_loop_error in Hloop.
           ++ intros [= <-].
              apply py_slice_items_error in Hs as [->| ->]; eauto.
        -- intros [= <-]. left.
           destruct v as [| | | |s|l|dl]; try by injection Hraw as <-.
           cbn in Hv, Hraw. destruct (dl !! "dokument"); [done|].
           by rewrite bool_decide_eq_false_2 in Hv by by intros [? ?].
      * intros [= <-]. left. destruct v; cbn in Hv; by simplify_eq.
    + rewrite bool_decide_eq_false_2 by by intros [? ?]. done.
Qed.

Lemma total_hits_error {py : interpreter} (results : json) (e : pyexn) :
  total_hits results = Raise e → is_builtin_error py e.
Proof.
  unfold total_hits.
  destruct results as [| | | | | |d]; cbn [py_get mbind result_bind];
    try (intros [= <-]; apply interp_builtin; set_solver).
  destruct (default (JDict ∅) (d !! "dokumentlista")) as [| | | | | |dl];
    cbn [py_get mbind result_bind];
    try (intros [= <-]; apply interp_builtin; set_solver).
  destruct (default (JStr "0") (dl !! "@traffar")) as [|b|z|f|s|l|x];
    cbn [py_int]; try done;
    try (intros [= <-]; apply interp_builtin; set_solver).
  - destruct f; cbn [int_of_float]; try done;
      intros [= <-]; apply interp_builtin; set_solver.
  - destruct (int_of_str s); [done|].
    intros [= <-]; apply interp_builtin; set_solver.
Qed.

(** X4. An exception that is not an [httpx.HTTPError] passes through
    [search_documents] and [riksdagen_search] unchanged, without the
    "Error searching" wrapping: one raised by the request itself, and one
    raised by decoding the body of a 2xx response. *)
Theorem other_exceptions_pass_unwrapped {py : interpreter}
    (client : RiksdagenClient)
    (sok doktyp rm from_date tom : option string) (sort sortorder : string)
    (limit : Z) :
  (∀ e,
     client_get client (BASE_URL +:+ "/dokumentlista/")
       (to_query_params
          (search_params sok doktyp rm from_date tom sort sortorder))
       = Raise e →
     issubclass (class_of e) HTTPError = false →
     search_documents client
       (search_params sok doktyp rm from_date tom sort sortorder) = Raise e ∧
     riksdagen_search py client sok doktyp rm from_date tom sort sortorder limit
       = Raise e) ∧
  (∀ response e,
     client_get client (BASE_URL +:+ "/dokumentlista/")
       (to_query_params
          (search_params sok doktyp rm from_date tom sort sortorder))
       = Ok response →
     200 ≤ status_code response ≤ 299 →
     response_json response = Raise e →
     issubclass (class_of e) HTTPError = false →
     search_documents client
       (search_params sok doktyp rm from_date tom sort sortorder) = Raise e ∧
     riksdagen_search py client sok doktyp rm from_date tom sort sortorder limit
       = Raise e).
Proof.
  split.
  - intros e Hget Hclass.
    assert (search_documents client
              (search_params sok doktyp rm from_date tom sort sortorder)
            = Raise e) as Hraise.
    { unfold search_documents. rewrite Hget.
      cbn [mbind result_bind try_except]. by rewrite Hclass. }
    split; [done|]. unfold riksdagen_search. by rewrite Hraise.
  - intros response e Hget Hstatus Hjson Hclass.
    assert (search_documents client
              (search_params sok doktyp rm from_date tom sort sortorder)
            = Raise e) as Hraise.
    { unfold search_documents. rewrite Hget.
      cbn [mbind result_bind]. unfold raise_for_status.
      destruct (Z.leb_spec 200 (status_code response)); [|lia].
      destruct (Z.leb_spec (status_code response) 299); [|lia].
      cbn [andb mbind result_bind]. rewrite Hjson.
      cbn [try_except]. by rewrite Hclass. }
    split; [done|]. unfold riksdagen_search. by rewrite Hraise.
Qed.

Lemma other_exceptions_pass_unwrapped_witness :
  search_with undecodable_client 10
    = Raise (Raised JSONDecodeError
               "Expecting value: line 1 column 1 (char 0)") ∧
  search_with (fixed_client (Raise (Raised InvalidURL "Invalid port"))) 10
    = Raise (Raised InvalidURL "Invalid port").
Proof.
  split.
  - apply (proj2 (other_exceptions_pass_unwrapped (py := UpTo311) undecodable_client
                    None None None None None "rel" "desc" 10)
             {| status_code := 200; status_error := "";
                response_json :=
                  Raise (Raised JSONDecodeError
                           "Expecting value: line 1 column 1 (char 0)") |});
      [reflexivity|simpl; lia|reflexivity|reflexivity].
  - apply (proj1 (other_exceptions_pass_unwrapped (py := UpTo311)
                    (fixed_client (Raise (Raised InvalidURL "Invalid port")))
                    None None None None None "rel" "desc" 10));
      reflexivity.
Defined.

(** X5. No [httpx.HTTPError] ever leaves [riksdagen_search]; and once the
    payload has been fetched, the only exceptions the tool raises are the
    interpreter's [TypeError], [AttributeError], [ValueError] and
    [OverflowError], and the exception of slicing a dict: a [TypeError] up
    to Python 3.11 (so that no [KeyError] is raised there), a [KeyError]
    from Python 3.12 on. *)
Theorem search_exception_classes {py : interpreter} (client : RiksdagenClient)
    (sok doktyp rm from_date tom : option string) (sort sortorder : string)
    (limit : Z) (e : pyexn) :
  riksdagen_search py client sok doktyp rm from_date tom sort sortorder limit
    = Raise e →
  issubclass (class_of e) HTTPError = false ∧
  (∀ results,
     search_documents client
       (search_params sok doktyp rm from_date tom sort sortorder)
       = Ok results →
     is_builtin_error py e).
Proof.
  unfold riksdagen_search.
  destruct (search_documents client _) as [results|e0] eqn:Hres;
    cbn [mbind result_bind].
  - intros Hraise.
    assert (is_builtin_error py e) as Hbuiltin.
    { destruct (extract_documents py results limit) as [documents|e1] eqn:Hdocs;
        cbn [mbind result_bind] in Hraise.
      - destruct (total_hits results) as [hits|e2] eqn:Hhits;
          cbn [mbind result_bind] in Hraise; [done|].
        injection Hraise as <-. by apply (total_hits_error results).
      - injection Hraise as <-.
        apply extract_documents_error in Hdocs as [-> | [-> | ->]];
          apply interp_builtin; set_solver. }
    split; [by apply (builtin_error_not_http (py := py))|done].
  - intros [= <-]. split; [|done].
    by apply (search_documents_no_http_error client _ _ Hres).
Qed.

Lemma search_exception_classes_witness :
  is_builtin_error UpTo311 (Interp ValueError).
Proof.
  refine (proj2 (search_exception_classes (py := UpTo311)
            (fixed_client (ok_response unparsable_hits))
            None None None None None "rel" "desc" 10 (Interp ValueError) _)
            unparsable_hits _);
    vm_compute; reflexivity.
Defined.

(** X6. A payload that is not a JSON object never gets an answer: the
    search raises [TypeError] or [AttributeError]. *)
Theorem non_object_payload_raises {py : interpreter}
    (client : RiksdagenClient)
    (sok doktyp rm from_date tom : option string) (sort sortorder : string)
    (limit : Z) (results : json) :
  search_documents client
    (search_params sok doktyp rm from_date tom sort sortorder) = Ok results →
  (∀ d, results ≠ JDict d) →
  riksdagen_search py client sok doktyp rm from_date tom sort sortorder limit
    = Raise (Interp TypeError) ∨
  riksdagen_search py client sok doktyp rm from_date tom sort sortorder limit
    = Raise (Interp AttributeError).
Proof.
  intros Hres Hshape.
  rewrite (riksdagen_search_results _ _ _ _ _ _ _ _ _ _ Hres).
  unfold extract_documents, total_hits.
  destruct results as [| | | |s|l|d]; cbn [py_contains mbind result_bind];
    try by left.
  - destruct (str_contains "dokumentlista" s); [by left|by right].
  - destruct (existsb (is_str "dokumentlista") l); [by left|by right].
  - by destruct (Hshape d).
Qed.

Lemma non_object_payload_raises_witness :
  search_with (fixed_client (ok_response (JList []))) 10
    = Raise (Interp TypeError) ∨
  search_with (fixed_client (ok_response (JList []))) 10
    = Raise (Interp AttributeError).
Proof.
  apply (non_object_payload_raises (py := UpTo311) (fixed_client (ok_response (JList [])))
           None None None None None "rel" "desc" 10 (JList []));
    [reflexivity|done].
Defined.

(** X7. A null is not a missing value: a null "dokumentlista" and a null
    "dokument" each make the search raise [TypeError] instead of giving an
    empty list, and a null "@traffar" makes it raise [TypeError] instead of
    giving 0 once the document list has been built without an
    exception. *)
Theorem null_values_raise {py : interpreter} (client : RiksdagenClient)
    (sok doktyp rm from_date tom : option string) (sort sortorder : string)
    (limit : Z) (d : gmap string json) :
  search_documents client
    (search_params sok doktyp rm from_date tom sort sortorder)
    = Ok (JDict d) →
  (d !! "dokumentlista" = Some JNull →
   riksdagen_search py client sok doktyp rm from_date tom sort sortorder limit
   = Raise (Interp TypeError)) ∧
  (∀ dl, d !! "dokumentlista" = Some (JDict dl) →
         dl !! "dokument" = Some JNull →
   riksdagen_search py client sok doktyp rm from_date tom sort sortorder limit
   = Raise (Interp TypeError)) ∧
  (∀ dl documents,
     d !! "dokumentlista" = Some (JDict dl) →
     dl !! "@traffar" = Some JNull →
     extract_documents py (JDict d) limit = Ok documents →
   riksdagen_search py client sok doktyp rm from_date tom sort sortorder limit
   = Raise (Interp TypeError)).
Proof.
  intros Hres.
  rewrite (riksdagen_search_results _ _ _ _ _ _ _ _ _ _ Hres).
  repeat split.
  - intros Hd. unfold extract_documents, py_contains, py_getitem.
    rewrite Hd, bool_decide_eq_true_2 by by eexists. reflexivity.
  - intros dl Hd Hdl.
    by rewrite (extract_documents_value d dl JNull).
  - intros dl documents Hd Hdl Hdocs. rewrite Hdocs.
    cbn [mbind result_bind].
    by rewrite (total_hits_field d dl JNull).
Qed.

Lemma null_values_raise_witness :
  search_with
    (fixed_client (ok_response (JDict (bare_payload_dict JNull)))) 10
    = Raise (Interp TypeError) ∧
  search_with
    (fixed_client (ok_response (JDict {[ "dokumentlista" := JNull ]}))) 10
    = Raise (Interp TypeError).
Proof.
  split.
  - refine (proj2 (proj2 (null_values_raise (py := UpTo311)
             (fixed_client (ok_response (JDict (bare_payload_dict JNull))))
             None None None None None "rel" "desc" 10
             (bare_payload_dict JNull) _))
             (hit_count_only JNull) [] _ _ _);
      vm_compute; reflexivity.
  - refine (proj1 (null_values_raise (py := UpTo311)
             (fixed_client
                (ok_response (JDict {[ "dokumentlista" := JNull ]})))
             None None None None None "rel" "desc" 10
             {[ "dokumentlista" := JNull ]} _) _);
      vm_compute; reflexivity.
Defined.

(** X17. [search_documents] returns a value exactly when the request is
    answered with a status in 200..299 and the body decodes: the value is
    then the decoded body, unmodified. *)
Theorem search_documents_returns_body (self : RiksdagenClient)
    (params : RiksdagenSearchParams) (body : json) :
  search_documents self params = Ok body ↔
  ∃ response,
    client_get self (BASE_URL +:+ "/dokumentlista/") (to_query_params params)
      = Ok response ∧
    200 ≤ status_code response ≤ 299 ∧
    response_json response = Ok body.
Proof.
  unfold search_documents, try_except, raise_for_status.
  generalize (to_query_params params) (BASE_URL +:+ "/dokumentlista/").
  intros query endpoint. split.
  - destruct (client_get self endpoint query) as [response|e];
      cbn [mbind result_bind].
    + destruct (Z.leb_spec 200 (status_code response));
        destruct (Z.leb_spec (status_code response) 299);
        cbn [andb mbind result_bind]; try done.
      destruct (response_json response) as [v|e] eqn:Hjson.
      * intros [= <-]. exists response. repeat split; done.
      * by destruct (issubclass (class_of e) HTTPError).
    + by destruct (issubclass (class_of e) HTTPError).
  - intros (response & -> & Hstatus & Hbody). cbn [mbind result_bind].
    destruct (Z.leb_spec 200 (status_code response)); [|lia].
    destruct (Z.leb_spec (status_code response) 299); [|lia].
    cbn [andb mbind result_bind]. by rewrite Hbody.
Qed.

Lemma search_documents_returns_body_witness :
  search_documents (fixed_client (ok_response unparsable_hits))
                   default_params
  = Ok unparsable_hits.
Proof.
  apply (search_documents_returns_body
           (fixed_client (ok_response unparsable_hits)) default_params
           unparsable_hits).
  eexists. split; [reflexivity|]. split; [cbn; lia|reflexivity].
Defined.

(** ** Further properties of the search tool *)

Lemma chars_length (l : list ascii) :
  length (chars (String.string_of_list_ascii l)) = length l.
Proof. induction l as [|c l IH]; [done|]. cbn. by rewrite IH. Qed.

Lemma slice_to_length_le {A} (l : list A) (limit : Z) :
  0 ≤ limit → Z.of_nat (length (slice_to l limit)) ≤ limit.
Proof. intros Hlimit. rewrite slice_to_nonneg, length_take by done. lia. Qed.

Lemma py_slice_items_length {py : interpreter}
    (v : json) (limit : Z) (visited : list json) :
  py_slice_items py v limit = Ok visited →
  0 ≤ limit → Z.of_nat (length visited) ≤ limit.
Proof.
  destruct v as [| | | |s|l|d]; try done; intros [= <-] Hlimit.
  - rewrite length_fmap, chars_length. by apply slice_to_length_le.
  - by apply slice_to_length_le.
Qed.

Lemma extract_documents_ok {py : interpreter} (results : json) (limit : Z)
    (documents : list json) :
  extract_documents py results limit = Ok documents →
  ∃ raws, documents = normalized_document <$> raws ∧
          (0 ≤ limit → Z.of_nat (length raws) ≤ limit).
Proof.
  assert (∃ raws : list (gmap string json),
            [] = normalized_document <$> raws ∧
            (0 ≤ limit → Z.of_nat (length raws) ≤ limit)) as Hnone.
  { exists []. split; [done|]. cbn. lia. }
  unfold extract_documents.
  destruct (py_contains "dokumentlista" results) as [[|]|e0];
    cbn [mbind result_bind]; [| by intros [= <-] | done].
  destruct (py_getitem results "dokumentlista") as [dl|e1];
    cbn [mbind result_bind]; [|done].
  destruct (py_contains "dokument" dl) as [[|]|e2];
    cbn [mbind result_bind]; [| by intros [= <-] | done].
  destruct (py_getitem dl "dokument") as [raw_docs|e3];
    cbn [mbind result_bind]; [|done].
  destruct (py_slice_items py raw_docs limit) as [visited|e4] eqn:Hslice;
    cbn [mbind result_bind]; [|done].
  intros Hloop. apply normalize_loop_ok in Hloop as (raws & -> & ->).
  exists raws. split; [done|]. intros Hlimit.
  apply (py_slice_items_length _ _ _ Hslice) in Hlimit.
  by rewrite length_fmap in Hlimit.
Qed.

(** X8. Whatever the payload, when [riksdagen_search] answers, the answer
    holds a hit count and a list of normalized documents, and for a limit
    that is not negative the list has at most [limit] documents. *)
Theorem search_answer_is_bounded {py : interpreter} (client : RiksdagenClient)
    (sok doktyp rm from_date tom : option string) (sort sortorder : string)
    (limit : Z) (response : json) :
  riksdagen_search py client sok doktyp rm from_date tom sort sortorder limit
    = Ok response →
  ∃ hits raws,
    response = search_response hits (normalized_document <$> raws) ∧
    (0 ≤ limit → Z.of_nat (length raws) ≤ limit).
Proof.
  unfold riksdagen_search.
  destruct (search_documents client _) as [results|e0];
    cbn [mbind result_bind]; [|done].
  destruct (extract_documents py results limit) as [documents|e1] eqn:Hdocs;
    cbn [mbind result_bind]; [|done].
  destruct (total_hits results) as [hits|e2];
    cbn [mbind result_bind]; [|done].
  intros [= <-].
  destruct (extract_documents_ok _ _ _ Hdocs) as (raws & -> & Hlen).
  by exists hits, raws.
Qed.

Lemma search_answer_is_bounded_witness :
  ∃ hits raws,
    search_response 42 [normalized_document (entry "H8C1")]
      = search_response hits (normalized_document <$> raws) ∧
    (0 ≤ 1 → Z.of_nat (length raws) ≤ 1).
Proof.
  apply (search_answer_is_bounded (py := UpTo311)
           (fixed_client (ok_response (payload (JStr "42") two_entries)))
           None None None None None "rel" "desc" 1
           (search_response 42 [normalized_document (entry "H8C1")])).
  vm_compute. reflexivity.
Defined.

Lemma for_each_app {A S} (body : S → A → result S) (s : S) (l k : list A) :
  for_each body s (l ++ k) = (s' ← for_each body s l; for_each body s' k).
Proof.
  revert s. induction l as [|x l IH]; intros s; [done|].
  cbn [app for_each]. destruct (body s x) as [s'|e]; [|done].
  cbn [mbind result_bind]. apply IH.
Qed.

(** X9. Entries past the limit are never inspected: when the hit count
    can be read and the first [limit] entries of the document list are
    objects, the search answers with these entries, normalized, whatever
    the later entries are. *)
Theorem entries_past_limit_are_ignored {py : interpreter}
    (client : RiksdagenClient)
    (sok doktyp rm from_date tom : option string) (sort sortorder : string)
    (limit : Z) (d dl : gmap string json) (good : list (gmap string json))
    (rest : list json) (hits : Z) :
  search_documents client
    (search_params sok doktyp rm from_date tom sort sortorder)
    = Ok (JDict d) →
  total_hits (JDict d) = Ok hits →
  d !! "dokumentlista" = Some (JDict dl) →
  dl !! "dokument" = Some (JList ((JDict <$> good) ++ rest)) →
  0 ≤ limit ≤ Z.of_nat (length good) →
  riksdagen_search py client sok doktyp rm from_date tom sort sortorder limit
  = Ok (search_response hits
          (normalized_document <$> take (Z.to_nat limit) good)).
Proof.
  intros Hres Hhits Hd Hdl Hlimit.
  rewrite (riksdagen_search_results _ _ _ _ _ _ _ _ _ _ Hres).
  rewrite (extract_documents_value d dl _ limit Hd Hdl).
  cbn [py_slice_items mbind result_bind].
  assert (slice_to ((JDict <$> good) ++ rest) limit
          = JDict <$> take (Z.to_nat limit) good) as ->.
  { rewrite slice_to_nonneg by lia.
    rewrite length_app, length_fmap, fmap_take.
    replace (Z.to_nat (limit `min` Z.of_nat (length good + length rest)))
      with (Z.to_nat limit) by lia.
    apply take_app_le. rewrite length_fmap. lia. }
  rewrite (normalize_loop _ []). cbn [app mbind result_bind].
  by rewrite Hhits.
Qed.

Lemma entries_past_limit_are_ignored_witness :
  search_with
    (fixed_client
       (ok_response
          (JDict (raw_payload_dict (JStr "3")
                    [JDict (entry "H8C1"); JNull; JStr "x"])))) 1
  = Ok (search_response 3 [normalized_document (entry "H8C1")]).
Proof.
  apply (entries_past_limit_are_ignored (py := UpTo311)
           (fixed_client
              (ok_response
                 (JDict (raw_payload_dict (JStr "3")
                           [JDict (entry "H8C1"); JNull; JStr "x"]))))
           None None None None None "rel" "desc" 1
           (raw_payload_dict (JStr "3")
              [JDict (entry "H8C1"); JNull; JStr "x"])
           (raw_document_list (JStr "3")
              [JDict (entry "H8C1"); JNull; JStr "x"])
           [entry "H8C1"] [JNull; JStr "x"] 3);
    try (cbn; lia); vm_compute; reflexivity.
Defined.

(** X10. An entry within the limit that is not an object fails the whole
    search with [AttributeError]: no partial document list is returned,
    and the hit count is not even read. *)
Theorem non_object_entry_fails_search {py : interpreter}
    (client : RiksdagenClient)
    (sok doktyp rm from_date tom : option string) (sort sortorder : string)
    (limit : Z) (d dl : gmap string json) (good : list (gmap string json))
    (bad : json) (rest : list json) :
  search_documents client
    (search_params sok doktyp rm from_date tom sort sortorder)
    = Ok (JDict d) →
  d !! "dokumentlista" = Some (JDict dl) →
  dl !! "dokument" = Some (JList ((JDict <$> good) ++ bad :: rest)) →
  (∀ raw, bad ≠ JDict raw) →
  Z.of_nat (length good) < limit →
  riksdagen_search py client sok doktyp rm from_date tom sort sortorder limit
  = Raise (Interp AttributeError).
Proof.
  intros Hres Hd Hdl Hbad Hlimit.
  rewrite (riksdagen_search_results _ _ _ _ _ _ _ _ _ _ Hres).
  rewrite (extract_documents_value d dl _ limit Hd Hdl).
  cbn [py_slice_items mbind result_bind].
  assert (∃ more, slice_to ((JDict <$> good) ++ bad :: rest) limit
                  = ((JDict <$> good) ++ bad :: more)%list) as [more ->].
  { rewrite slice_to_nonneg by lia.
    rewrite take_app_ge by (rewrite length_app, length_fmap; cbn; lia).
    rewrite length_app, !length_fmap. cbn [length].
    destruct (Z.to_nat _ - length good)%nat as [|n] eqn:Hn; [lia|].
    by eexists. }
  rewrite for_each_app, (normalize_loop _ []).
  cbn [app mbind result_bind for_each].
  assert (normalize bad = Raise (Interp AttributeError)) as ->; [|done].
  destruct bad; try done. by destruct (Hbad d0).
Qed.

Lemma non_object_entry_fails_search_witness :
  search_with
    (fixed_client
       (ok_response
          (JDict (raw_payload_dict (JStr "3")
                    [JDict (entry "H8C1"); JNull; JStr "x"])))) 2
  = Raise (Interp AttributeError).
Proof.
  apply (non_object_entry_fails_search (py := UpTo311)
           (fixed_client
              (ok_response
                 (JDict (raw_payload_dict (JStr "3")
                           [JDict (entry "H8C1"); JNull; JStr "x"]))))
           None None None None None "rel" "desc" 2
           (raw_payload_dict (JStr "3")
              [JDict (entry "H8C1"); JNull; JStr "x"])
           (raw_document_list (JStr "3")
              [JDict (entry "H8C1"); JNull; JStr "x"])
           [entry "H8C1"] JNull [JStr "x"]);
    try done; try (cbn; lia); vm_compute; reflexivity.
Defined.

(** X11. Lowering the limit only truncates the answer: for limits
    [0 ≤ low ≤ high] on a payload whose entries are objects, the documents
    for [low] are the first [low] documents of the answer for [high], with
    the same hit count. *)
Theorem lower_limit_gives_prefix {py : interpreter} (client : RiksdagenClient)
    (sok doktyp rm from_date tom : option string) (sort sortorder : string)
    (low high : Z) (d dl : gmap string json)
    (entries : list (gmap string json)) (hits : Z) :
  search_documents client
    (search_params sok doktyp rm from_date tom sort sortorder)
    = Ok (JDict d) →
  total_hits (JDict d) = Ok hits →
  d !! "dokumentlista" = Some (JDict dl) →
  dl !! "dokument" = Some (JList (JDict <$> entries)) →
  0 ≤ low ≤ high →
  ∃ documents,
    riksdagen_search py client sok doktyp rm from_date tom sort sortorder high
      = Ok (search_response hits documents) ∧
    riksdagen_search py client sok doktyp rm from_date tom sort sortorder low
      = Ok (search_response hits (take (Z.to_nat low) documents)).
Proof.
  intros Hres Hhits Hd Hdl Hlimits.
  exists (normalized_document <$> slice_to entries high). split.
  - by apply (riksdagen_search_slice _ _ _ _ _ _ _ _ _ d dl).
  - rewrite (riksdagen_search_slice _ _ _ _ _ _ _ _ low d dl entries hits)
      by done.
    rewrite <- fmap_take, !slice_to_nonneg, take_take by lia.
    do 4 f_equal. lia.
Qed.

Lemma lower_limit_gives_prefix_witness :
  ∃ documents,
    search_with
      (fixed_client (ok_response (payload (JStr "42") fifteen_entries))) 12
      = Ok (search_response 42 documents) ∧
    search_with
      (fixed_client (ok_response (payload (JStr "42") fifteen_entries))) 5
      = Ok (search_response 42 (take 5 documents)).
Proof.
  apply (lower_limit_gives_prefix (py := UpTo311)
           (fixed_client (ok_response (payload (JStr "42") fifteen_entries)))
           None None None None None "rel" "desc" 5 12
           (payload_dict (JStr "42") fifteen_entries)
           (document_list (JStr "42") fifteen_entries)
           fifteen_entries 42);
    try lia; vm_compute; reflexivity.
Defined.

(** X12. Normalizing an object copies each of the eleven attributes as it
    is, whatever its JSON type (a null stays a null), under the field name
    of [field_sources]; it gives the empty string only for an attribute
    that is missing, and it has these eleven fields and no other. *)
Theorem normalize_copies_attributes (raw : gmap string json) :
  ∃ m : gmap string json,
    normalize (JDict raw) = Ok (JDict m) ∧
    (∀ out src, (out, src) ∈ field_sources →
                m !! out = Some (default (JStr "") (raw !! src))) ∧
    dom m = (list_to_set field_sources.*1 : gset string).
Proof.
  eexists. split; [apply normalize_dict|]. split.
  - intros out src Hin. unfold field_sources in Hin.
    repeat (apply elem_of_cons in Hin as [[= -> ->]|Hin];
            [vm_compute; reflexivity|]).
    by apply elem_of_nil in Hin.
  - rewrite dom_list_to_map_L. reflexivity.
Qed.

Lemma normalize_copies_attributes_witness :
  ∃ m : gmap string json,
    normalize (JDict odd_document) = Ok (JDict m) ∧
    m !! "title" = Some JNull ∧ m !! "date" = Some (JStr "") ∧
    m !! "extra" = None.
Proof.
  destruct (normalize_copies_attributes odd_document) as (m & Hm & Hcopy & Hdom).
  exists m. split; [exact Hm|]. split; [|split].
  - apply (Hcopy "title" "titel").
    apply (bool_decide_unpack _). vm_compute. exact I.
  - apply (Hcopy "date" "datum").
    apply (bool_decide_unpack _). vm_compute. exact I.
  - apply not_elem_of_dom. rewrite Hdom.
    apply (bool_decide_unpack _). vm_compute. exact I.
Defined.

(** ** Further properties of the URL list tool *)

Lemma lower_char_idempotent (c : ascii) :
  lower_char (lower_char c) = lower_char c.
Proof. destruct c as [[] [] [] [] [] [] [] []]; reflexivity. Qed.

Lemma lower_idempotent (s : string) : lower (lower s) = lower s.
Proof.
  induction s as [|c s IH]; [done|].
  cbn [lower]. by rewrite lower_char_idempotent, IH.
Qed.

Lemma create_url_list_ok (document_ids : list string) (format : string) :
  lower format ∈ ["json"; "html"; "text"] →
  riksdagen_create_url_list document_ids format
  = Ok (url_list_result (url_entry (lower format) <$> document_ids)
                        (lower format)).
Proof.
  intros Hformat. unfold riksdagen_create_url_list.
  rewrite bool_decide_eq_true_2 by done. cbn [negb].
  by rewrite (url_list_loop _ _ []).
Qed.

(** X13. Only the lowercase form of the format matters: two formats with
    the same lowercase form give the same outcome, error or result, and
    passing the format already lowercased changes nothing. *)
Theorem format_case_is_irrelevant (document_ids : list string)
    (format other : string) :
  (lower format = lower other →
   riksdagen_create_url_list document_ids format
   = riksdagen_create_url_list document_ids other) ∧
  riksdagen_create_url_list document_ids (lower format)
  = riksdagen_create_url_list document_ids format.
Proof.
  assert (∀ f g, lower f = lower g →
                 riksdagen_create_url_list document_ids f
                 = riksdagen_create_url_list document_ids g) as Hsame.
  { intros f g Heq. unfold riksdagen_create_url_list. by rewrite Heq. }
  split; [apply Hsame|]. apply Hsame, lower_idempotent.
Qed.

Lemma format_case_is_irrelevant_witness :
  riksdagen_create_url_list ["H8C1"] "Json"
  = riksdagen_create_url_list ["H8C1"] "jSON".
Proof.
  exact (proj1 (format_case_is_irrelevant ["H8C1"] "Json" "jSON") eq_refl).
Defined.

(** X14. URL lists compose: for an accepted format, the entries for the
    concatenation of two ID lists are the entries for the first list
    followed by those for the second, and the count is the sum of the two
    counts. *)
Theorem create_url_list_app (ids1 ids2 : list string) (format : string) :
  lower format ∈ ["json"; "html"; "text"] →
  ∃ urls1 urls2,
    riksdagen_create_url_list ids1 format
      = Ok (url_list_result urls1 (lower format)) ∧
    riksdagen_create_url_list ids2 format
      = Ok (url_list_result urls2 (lower format)) ∧
    riksdagen_create_url_list (ids1 ++ ids2) format
      = Ok (url_list_result (urls1 ++ urls2) (lower format)) ∧
    length (urls1 ++ urls2) = (length ids1 + length ids2)%nat.
Proof.
  intros Hformat.
  exists (url_entry (lower format) <$> ids1),
         (url_entry (lower format) <$> ids2).
  rewrite !create_url_list_ok by done.
  rewrite fmap_app, length_app, !length_fmap. done.
Qed.

Lemma create_url_list_app_witness :
  ∃ urls1 urls2,
    riksdagen_create_url_list ["H8C1"] "text"
      = Ok (url_list_result urls1 "text") ∧
    riksdagen_create_url_list ["H8C2"; "H8C1"] "text"
      = Ok (url_list_result urls2 "text") ∧
    riksdagen_create_url_list ["H8C1"; "H8C2"; "H8C1"] "text"
      = Ok (url_list_result (urls1 ++ urls2) "text") ∧
    length (urls1 ++ urls2) = 3%nat.
Proof.
  apply (create_url_list_app ["H8C1"] ["H8C2"; "H8C1"] "text").
  apply (bool_decide_unpack _). vm_compute. exact I.
Defined.

(** ** The calls made on the session: proofs *)

Lemma search_documents_traced_spec (self : RiksdagenClient)
    (params : RiksdagenSearchParams) :
  search_documents_traced self params =
    Traced (search_documents self params)
           [Request (BASE_URL +:+ "/dokumentlista/") (to_query_params params)].
Proof.
  unfold search_documents_traced, search_documents, traced_try_except,
    try_except, get_traced.
  generalize (to_query_params params) (BASE_URL +:+ "/dokumentlista/").
  intros query endpoint.
  cbn [mbind traced_bind result_bind traced_outcome traced_events].
  destruct (client_get self endpoint query) as [response|e];
    cbn [mbind traced_bind result_bind traced_outcome traced_events silent].
  - destruct (raise_for_status response) as [[]|e];
      cbn [mbind traced_bind result_bind traced_outcome traced_events silent].
    + destruct (response_json response) as [v|e];
        cbn [mbind traced_bind result_bind traced_outcome traced_events
             silent app]; [reflexivity|].
      destruct (issubclass (class_of e) HTTPError); reflexivity.
    + destruct (issubclass (class_of e) HTTPError); reflexivity.
  - destruct (issubclass (class_of e) HTTPError); reflexivity.
Qed.

(** X15. Every call of [riksdagen_search] makes exactly one request on the
    session, a GET of [BASE_URL/dokumentlista/] with the query built from
    its arguments, whether the search answers or raises (no retry, no
    second request); and it never closes the session. Its outcome is that
    of [riksdagen_search]. *)
Theorem search_makes_one_request {py : interpreter} (client : RiksdagenClient)
    (sok doktyp rm from_date tom : option string) (sort sortorder : string)
    (limit : Z) :
  riksdagen_search_traced py client sok doktyp rm from_date tom sort sortorder
                          limit
  = Traced
      (riksdagen_search py client sok doktyp rm from_date tom sort sortorder
                        limit)
      [Request (BASE_URL +:+ "/dokumentlista/")
               (to_query_params
                  (search_params sok doktyp rm from_date tom sort
                                 sortorder))].
Proof.
  unfold riksdagen_search_traced, riksdagen_search.
  rewrite search_documents_traced_spec.
  cbn [mbind traced_bind traced_outcome traced_events].
  generalize (to_query_params
                (search_params sok doktyp rm from_date tom sort sortorder)).
  intros query.
  destruct (search_documents client _) as [results|e];
    cbn [mbind result_bind]; [|reflexivity].
  cbn [silent traced_outcome traced_events].
  destruct (extract_documents py results limit) as [documents|e];
    cbn [mbind result_bind]; [|reflexivity].
  destruct (total_hits results) as [hits|e]; reflexivity.
Qed.

(** ** The limit as a slice *)

(** C10, as amended. On a payload whose hit count is missing or readable
    and whose document list holds [n] entries: the limit 0 gives no
    documents, whatever the entries are; a negative limit [k] gives the
    first [n - |k|] entries, normalized, when these are objects (none when
    [n - |k|] is negative), the last [|k|] entries being dropped without
    being looked at. The truncation is the slice [raw_docs[:limit]], not a
    bound of [max(limit, 0)], and [total_hits] is the hit count of the
    payload in both cases. *)
Theorem limit_follows_slice_semantics {py : interpreter}
    (client : RiksdagenClient)
    (sok doktyp rm from_date tom : option string) (sort sortorder : string)
    (limit : Z) (d dl : gmap string json) (entries : list json) (hits : Z) :
  search_documents client
    (search_params sok doktyp rm from_date tom sort sortorder)
    = Ok (JDict d) →
  total_hits (JDict d) = Ok hits →
  d !! "dokumentlista" = Some (JDict dl) →
  dl !! "dokument" = Some (JList entries) →
  (limit = 0 →
   riksdagen_search py client sok doktyp rm from_date tom sort sortorder limit
   = Ok (search_response hits [])) ∧
  (limit < 0 →
   ∀ kept,
     take (Z.to_nat (Z.of_nat (length entries) - Z.abs limit)) entries
       = JDict <$> kept →
     riksdagen_search py client sok doktyp rm from_date tom sort sortorder
                      limit
     = Ok (search_response hits (normalized_document <$> kept))).
Proof.
  intros Hres Hhits Hd Hdl.
  rewrite (riksdagen_search_results _ _ _ _ _ _ _ _ _ _ Hres).
  rewrite (extract_documents_value d dl _ limit Hd Hdl).
  cbn [py_slice_items mbind result_bind]. split.
  - intros ->. rewrite slice_to_zero. cbn [for_each mbind result_bind].
    by rewrite Hhits.
  - intros Hneg kept Hkept. rewrite slice_to_negative, Hkept by done.
    rewrite (normalize_loop _ []). cbn [app mbind result_bind].
    by rewrite Hhits.
Qed.

Lemma limit_follows_slice_semantics_witness :
  search_with
    (fixed_client
       (ok_response
          (JDict (raw_payload_dict (JStr "42")
                    [JDict (entry "H8C1"); JDict (entry "H8C2"); JNull]))))
    0
  = Ok (search_response 42 []) ∧
  search_with
    (fixed_client
       (ok_response
          (JDict (raw_payload_dict (JStr "42")
                    [JDict (entry "H8C1"); JDict (entry "H8C2"); JNull]))))
    (-1)
  = Ok (search_response 42 (normalized_document <$> two_entries)).
Proof.
  split.
  - refine (proj1 (limit_follows_slice_semantics (py := UpTo311)
             (fixed_client
                (ok_response
                   (JDict (raw_payload_dict (JStr "42")
                             [JDict (entry "H8C1"); JDict (entry "H8C2");
                              JNull]))))
             None None None None None "rel" "desc" 0
             (raw_payload_dict (JStr "42")
                [JDict (entry "H8C1"); JDict (entry "H8C2"); JNull])
             (raw_document_list (JStr "42")
                [JDict (entry "H8C1"); JDict (entry "H8C2"); JNull])
             [JDict (entry "H8C1"); JDict (entry "H8C2"); JNull] 42
             _ _ _ _) _);
      try lia; vm_compute; reflexivity.
  - refine (proj2 (limit_follows_slice_semantics (py := UpTo311)
             (fixed_client
                (ok_response
                   (JDict (raw_payload_dict (JStr "42")
                             [JDict (entry "H8C1"); JDict (entry "H8C2");
                              JNull]))))
             None None None None None "rel" "desc" (-1)
             (raw_payload_dict (JStr "42")
                [JDict (entry "H8C1"); JDict (entry "H8C2"); JNull])
             (raw_document_list (JStr "42")
                [JDict (entry "H8C1"); JDict (entry "H8C2"); JNull])
             [JDict (entry "H8C1"); JDict (entry "H8C2"); JNull] 42
             _ _ _ _) _ two_entries _);
      try lia; vm_compute; reflexivity.
Defined.

(** C10 as stated fails: it holds for any payload with a document list, and
    with the hit count "abc" the limit 0 makes the search raise
    [ValueError] instead of giving an empty list; and with the limit -1 an
    entry that is not an object among the first [n - 1] makes it raise
    [AttributeError] instead of giving these entries. *)
Lemma slice_semantics_need_readable_payload :
  search_with (fixed_client (ok_response (payload (JStr "abc") two_entries)))
              0
    = Raise (Interp ValueError) ∧
  (∀ hits,
     search_with
       (fixed_client (ok_response (payload (JStr "abc") two_entries))) 0
     ≠ Ok (search_response hits [])) ∧
  search_with
    (fixed_client
       (ok_response
          (JDict (raw_payload_dict (JStr "42")
                    [JNull; JDict (entry "H8C1")]))))
    (-1)
  = Raise (Interp AttributeError).
Proof.
  assert (search_with
            (fixed_client (ok_response (payload (JStr "abc") two_entries))) 0
          = Raise (Interp ValueError)) as Hraise by (vm_compute; reflexivity).
  split; [done|]. split.
  - intros hits. by rewrite Hraise.
  - vm_compute. reflexivity.
Qed.
